(** * The 15-minute aggregation of [examples/basic_usage.py]

    A shallow embedding of the part of [main] that turns the raw CSV text
    returned by [client.get_combined_data_raw] into 15-minute chunks
    (lines 312-389) and of the 24-hour summary computed from them
    (lines 407-431), together with the properties of that code.

    Conventions of the embedding:
    - a Python [str] is a [string] whose characters are the code points
      0..255 (Latin-1); the predicates [isspace], [isdigit] and the regular
      expression classes are those of Python on that range;
    - an exception is a value: fallible operations return [result];
    - a Python number is an element of a type [F] with the operations of
      the class [PyNum]; the instance [binary64] is the arithmetic the
      interpreter performs, the instance [exact] is the arithmetic of the
      rationals, used to tell rounding apart from logic. *)

From Stdlib Require Import ZArith List Ascii String Bool Lia Floats QArith Sorted.
Import ListNotations.

Set Warnings "-inexact-float".

Local Open Scope string_scope.
Local Open Scope list_scope.
Local Open Scope Z_scope.

(** ** Exceptions *)

Inductive exn : Type :=
| ValueError
| ZeroDivisionError.

Inductive result (A : Type) : Type :=
| Ok (a : A)
| Raise (e : exn).

Arguments Ok {A} a.
Arguments Raise {A} e.

Definition bind {A B : Type} (r : result A) (k : A -> result B) : result B :=
  match r with
  | Ok a => k a
  | Raise e => Raise e
  end.

Notation "'let!' x ':=' r 'in' k" := (bind r (fun x => k))
  (at level 10, x pattern, r at level 100, k at level 200).

(** ** Strings *)

Module Str.

Definition code (c : ascii) : Z := Z.of_nat (nat_of_ascii c).

Definition newline : ascii := ascii_of_nat 10.

(** [str.isspace] on one character of the Latin-1 range. *)
Definition isspace (c : ascii) : bool :=
  let n := code c in
  ((9 <=? n) && (n <=? 13)) || ((28 <=? n) && (n <=? 32))
  || (n =? 133) || (n =? 160).

(** The characters [0-9], the ones [\d] and [float] read as digits. *)
Definition is_decimal (c : ascii) : bool :=
  let n := code c in (48 <=? n) && (n <=? 57).

(** [str.isdigit] on one character: the decimal digits and the
    superscripts U+00B2, U+00B3 and U+00B9. *)
Definition isdigit_char (c : ascii) : bool :=
  let n := code c in
  is_decimal c || (n =? 178) || (n =? 179) || (n =? 185).

Definition chars (s : string) : list ascii := list_ascii_of_string s.

(** [s.isdigit()]: every character is a digit and there is at least one. *)
Definition isdigit (s : string) : bool :=
  match chars s with
  | [] => false
  | cs => forallb isdigit_char cs
  end.

(** [s.replace(c, '')] for a one-character [c]. *)
Fixpoint remove (c : ascii) (s : string) : string :=
  match s with
  | EmptyString => EmptyString
  | String a s' =>
      if Ascii.eqb a c then remove c s' else String a (remove c s')
  end.

(** [s.split(sep)] for a one-character separator: never empty. *)
Fixpoint split (sep : ascii) (s : string) : list string :=
  match s with
  | EmptyString => [EmptyString]
  | String a s' =>
      if Ascii.eqb a sep then EmptyString :: split sep s'
      else match split sep s' with
           | [] => [String a EmptyString]
           | w :: ws => String a w :: ws
           end
  end.

Fixpoint lstrip (s : string) : string :=
  match s with
  | EmptyString => EmptyString
  | String a s' => if isspace a then lstrip s' else s
  end.

Fixpoint rstrip (s : string) : string :=
  match s with
  | EmptyString => EmptyString
  | String a s' =>
      match rstrip s' with
      | EmptyString => if isspace a then EmptyString else String a EmptyString
      | r => String a r
      end
  end.

(** [s.strip()] *)
Definition strip (s : string) : string := rstrip (lstrip s).

(** Truth value of a string: non-empty. *)
Definition truthy (s : string) : bool :=
  match s with
  | EmptyString => false
  | String _ _ => true
  end.

(** [sep.join(ls)], used to write test inputs. *)
Fixpoint join (sep : ascii) (ls : list string) : string :=
  match ls with
  | [] => EmptyString
  | [l] => l
  | l :: ls' => (l ++ String sep (join sep ls'))%string
  end.

End Str.

(** ** [datetime] *)

Record datetime : Type := mk_datetime {
  year : Z;
  month : Z;
  day : Z;
  hour : Z;
  minute : Z;
  second : Z;
  microsecond : Z
}.

Module DT.

Definition is_leap (y : Z) : bool :=
  ((y mod 4 =? 0) && negb (y mod 100 =? 0)) || (y mod 400 =? 0).

Definition days_in_month (y m : Z) : Z :=
  if m =? 2 then (if is_leap y then 29 else 28)
  else if (m =? 4) || (m =? 6) || (m =? 9) || (m =? 11) then 30
  else 31.

Definition in_range (lo hi x : Z) : bool := (lo <=? x) && (x <=? hi).

(** The checks of the [datetime] constructor: MINYEAR..MAXYEAR, a day
    that exists in the month, and the time fields in their ranges. *)
Definition valid (t : datetime) : bool :=
  in_range 1 9999 (year t) && in_range 1 12 (month t)
  && in_range 1 (days_in_month (year t) (month t)) (day t)
  && in_range 0 23 (hour t) && in_range 0 59 (minute t)
  && in_range 0 59 (second t) && in_range 0 999999 (microsecond t).

(** [datetime(y, m, d, H, M, S, us)] *)
Definition make (y m d H M S us : Z) : result datetime :=
  let t := mk_datetime y m d H M S us in
  if valid t then Ok t else Raise ValueError.

(** [t.replace(minute=mi, second=s, microsecond=us)]: a new [datetime]
    is constructed, so the constructor's checks run again. *)
Definition replace (t : datetime) (mi s us : Z) : result datetime :=
  make (year t) (month t) (day t) (hour t) mi s us.

Definition fields (t : datetime) : list Z :=
  [year t; month t; day t; hour t; minute t; second t; microsecond t].

(** [t1 == t2] on naive datetimes *)
Definition eqb (t1 t2 : datetime) : bool :=
  (year t1 =? year t2) && (month t1 =? month t2) && (day t1 =? day t2)
  && (hour t1 =? hour t2) && (minute t1 =? minute t2)
  && (second t1 =? second t2) && (microsecond t1 =? microsecond t2).

(** The chronological order: lexicographic on the fields. *)
Fixpoint lex_compare (a b : list Z) : comparison :=
  match a, b with
  | x :: a', y :: b' =>
      match x ?= y with
      | Eq => lex_compare a' b'
      | c => c
      end
  | [], [] => Eq
  | [], _ :: _ => Lt
  | _ :: _, [] => Gt
  end.

Definition compare (t1 t2 : datetime) : comparison :=
  lex_compare (fields t1) (fields t2).

Definition lt (t1 t2 : datetime) : Prop := compare t1 t2 = Lt.
Definition le (t1 t2 : datetime) : Prop := compare t1 t2 <> Gt.

End DT.

(** ** [datetime.strptime]

    [_strptime] compiles the format to a regular expression, matches it at
    the start of the text, rejects text that is left over, and hands the
    fields to the [datetime] constructor.  The directives are the library's:
    [%Y] is [\d\d\d\d], [%m] is [1[0-2]|0[1-9]|[1-9]], [%d] is
    [3[0-1]|[1-2]\d|0[1-9]|[1-9]| [1-9]], [%H] is [2[0-3]|[0-1]\d|\d],
    [%M] is [[0-5]\d|\d], [%S] is [6[0-1]|[0-5]\d|\d], and a blank of the
    format is [\s+].  A matcher returns every way to match a prefix, in the
    order the backtracking engine tries them. *)

Module Strptime.

Definition matcher (A : Type) : Type := list ascii -> list (A * list ascii).

Definition seq {A B : Type} (p : matcher A) (k : A -> matcher B) : matcher B :=
  fun s => flat_map (fun '(a, r) => k a r) (p s).

Definition ret {A : Type} (a : A) : matcher A := fun s => [(a, s)].

Definition alt {A : Type} (p q : matcher A) : matcher A :=
  fun s => p s ++ q s.

Definition digit_value (c : ascii) : Z := Str.code c - 48.

Definition exactly (c : ascii) : ascii -> bool := Ascii.eqb c.

Definition between (lo hi : ascii) (c : ascii) : bool :=
  (Str.code lo <=? Str.code c) && (Str.code c <=? Str.code hi).

(** One character of a class, read as a digit. *)
Definition one (p : ascii -> bool) : matcher Z :=
  fun s =>
    match s with
    | a :: r => if p a then [(digit_value a, r)] else []
    | [] => []
    end.

(** Two characters of two classes, read as a two-digit number. *)
Definition two (p1 p2 : ascii -> bool) : matcher Z :=
  seq (one p1) (fun a => seq (one p2) (fun b => ret (10 * a + b))).

Definition lit (c : ascii) : matcher unit :=
  fun s =>
    match s with
    | a :: r => if Ascii.eqb a c then [(tt, r)] else []
    | [] => []
    end.

(** [\s+], greedy: the longest run first, each shorter one after it. *)
Fixpoint blanks (s : list ascii) : list (unit * list ascii) :=
  match s with
  | a :: r => if Str.isspace a then blanks r ++ [(tt, r)] else []
  | [] => []
  end.

Definition digit : ascii -> bool := Str.is_decimal.

Definition re_Y : matcher Z :=
  seq (one digit) (fun a => seq (one digit) (fun b => seq (one digit) (fun c =>
  seq (one digit) (fun e => ret (1000 * a + 100 * b + 10 * c + e))))).

Definition re_m : matcher Z :=
  alt (two (exactly "1") (between "0" "2"))
 (alt (two (exactly "0") (between "1" "9"))
      (one (between "1" "9"))).

Definition re_d : matcher Z :=
  alt (two (exactly "3") (between "0" "1"))
 (alt (two (between "1" "2") digit)
 (alt (two (exactly "0") (between "1" "9"))
 (alt (one (between "1" "9"))
      (seq (lit " ") (fun _ => one (between "1" "9")))))).

Definition re_H : matcher Z :=
  alt (two (exactly "2") (between "0" "3"))
 (alt (two (between "0" "1") digit)
      (one digit)).

Definition re_M : matcher Z :=
  alt (two (between "0" "5") digit) (one digit).

Definition re_S : matcher Z :=
  alt (two (exactly "6") (between "0" "1"))
 (alt (two (between "0" "5") digit)
      (one digit)).

(** The two formats of the program. *)
Inductive format : Type :=
| slash_format   (* '%Y/%m/%d %H:%M:%S' *)
| dash_format.   (* '%Y-%m-%d %H:%M:%S' *)

Definition date_sep (f : format) : ascii :=
  match f with
  | slash_format => "/"
  | dash_format => "-"
  end%char.

Definition pattern (f : format) : matcher (Z * Z * Z * Z * Z * Z) :=
  seq re_Y (fun y => seq (lit (date_sep f)) (fun _ =>
  seq re_m (fun mo => seq (lit (date_sep f)) (fun _ =>
  seq re_d (fun dd => seq blanks (fun _ =>
  seq re_H (fun hh => seq (lit ":") (fun _ =>
  seq re_M (fun mi => seq (lit ":") (fun _ =>
  seq re_S (fun ss => ret (y, mo, dd, hh, mi, ss)))))))))))).

(** [datetime.strptime(text, format)] *)
Definition strptime (text : string) (f : format) : result datetime :=
  match pattern f (Str.chars text) with
  | [] => Raise ValueError                       (* does not match *)
  | ((y, mo, dd, hh, mi, ss), rest) :: _ =>
      match rest with
      | _ :: _ => Raise ValueError               (* unconverted data *)
      | [] => DT.make y mo dd hh mi ss 0
      end
  end.

End Strptime.


(** ** Numbers

    The operations the program performs on numbers.  [num_of_int] is the
    value of an [int] operand where it meets a [float]; [num_of_decimal neg
    m k] is what [float] returns for the numeral with sign [neg] whose digits
    read [m] once the point is dropped and that has [k] digits after the
    point. *)

Class PyNum (F : Type) : Type := {
  num_of_int : Z -> F;
  num_of_decimal : bool -> N -> N -> F;
  num_add : F -> F -> F;
  num_mul : F -> F -> F;
  num_div : F -> F -> F;
  num_lt : F -> F -> bool
}.

Module Binary64.

Definition sf_of_N (neg : bool) (n : N) : spec_float :=
  match n with
  | N0 => S754_zero neg
  | Npos p => S754_finite neg p 0
  end.

(** The double nearest to an integer (ties to even). *)
Definition of_int (z : Z) : float :=
  SF2Prim (binary_normalize prec emax z 0 false).

(** The double nearest to [m / 10^k] (ties to even), with its sign. *)
Definition of_decimal (neg : bool) (m k : N) : float :=
  SF2Prim (SFdiv prec emax (sf_of_N neg m) (sf_of_N false (10 ^ k))).

(** [sum] of floats as CPython 3.12 computes it: the rounding errors of
    the additions are accumulated in [c] and added at the end when [c] is
    finite and not zero. *)
Definition compensated_step (acc : float * float) (x : float) : float * float :=
  let '(f_result, c) := acc in
  let t := PrimFloat.add f_result x in
  if PrimFloat.leb (PrimFloat.abs x) (PrimFloat.abs f_result)
  then (t, PrimFloat.add c (PrimFloat.add (PrimFloat.sub f_result t) x))
  else (t, PrimFloat.add c (PrimFloat.add (PrimFloat.sub x t) f_result)).

Definition is_finite (x : float) : bool :=
  PrimFloat.ltb (PrimFloat.abs x) PrimFloat.infinity.

Definition compensated_sum (l : list float) : float :=
  let '(f_result, c) := fold_left compensated_step l (of_int 0, of_int 0) in
  if negb (PrimFloat.eqb c (of_int 0)) && is_finite c
  then PrimFloat.add f_result c
  else f_result.

End Binary64.

#[export] Instance binary64 : PyNum float := {|
  num_of_int := Binary64.of_int;
  num_of_decimal := Binary64.of_decimal;
  num_add := PrimFloat.add;
  num_mul := PrimFloat.mul;
  num_div := PrimFloat.div;
  num_lt := PrimFloat.ltb
|}.

Module Exact.

Definition of_decimal (neg : bool) (m k : N) : Q :=
  let z := Z.of_N m in
  Qmake (if neg then - z else z) (Z.to_pos (10 ^ Z.of_N k)).

Definition lt (x y : Q) : bool := negb (Qle_bool y x).

End Exact.

#[export] Instance exact : PyNum Q := {|
  num_of_int := inject_Z;
  num_of_decimal := Exact.of_decimal;
  num_add := Qplus;
  num_mul := Qmult;
  num_div := Qdiv;
  num_lt := Exact.lt
|}.

(** ** The aggregation *)

Section Aggregation.

Context {F : Type} {num : PyNum F}.

(** The number a string of decimal digits reads. *)
Definition digits_value (cs : list ascii) : N :=
  fold_left (fun acc c => (10 * acc + Z.to_N (Strptime.digit_value c))%N) cs 0%N.

Fixpoint span_decimal (cs : list ascii) : list ascii * list ascii :=
  match cs with
  | c :: r =>
      if Str.is_decimal c
      then let '(ds, rest) := span_decimal r in (c :: ds, rest)
      else ([], cs)
  | [] => ([], [])
  end.

(** [float(s)] on the strings that reach it: the screen of [parse_power]
    lets through digit characters, ['.'] and ['-'] only, and of those
    [float] accepts an optional leading ['-'] followed by decimal digits
    with at most one point and at least one digit. *)
Definition py_float (s : string) : result F :=
  let cs := Str.chars s in
  let '(neg, body) :=
    match cs with
    | c :: r => if Ascii.eqb c "-" then (true, r) else (false, cs)
    | [] => (false, cs)
    end in
  let '(int_part, rest) := span_decimal body in
  match rest with
  | [] =>
      match int_part with
      | [] => Raise ValueError
      | _ => Ok (num_of_decimal neg (digits_value int_part) 0)
      end
  | c :: frac_part =>
      if Ascii.eqb c "." && forallb Str.is_decimal frac_part
         && negb ((List.length int_part + List.length frac_part =? 0)%nat)
      then Ok (num_of_decimal neg (digits_value (int_part ++ frac_part)%list)
                 (N.of_nat (List.length frac_part)))
      else Raise ValueError
  end.

(** One entry of [aggregated_data].  ['timestamp'] holds the value of
    [current_timestamp], which is [None] before the first reading. *)
Record bucket : Type := mk_bucket {
  timestamp : option datetime;
  avg_power : F;
  max_power : F;
  min_power : F;
  readings : nat
}.

(** The variables of the loop. *)
Record state : Type := mk_state {
  aggregated_data : list bucket;
  current_chunk : list F;
  current_timestamp : option datetime;
  chunk_start_time : option datetime
}.

Definition init : state := mk_state [] [] None None.

(** [sum(l)]: the items are added from the left, starting from 0.  (From
    version 3.12 on CPython carries a compensation term along when the
    items are floats; [Binary64.compensated_sum] below is that variant.) *)
Definition py_sum (l : list F) : F := fold_left num_add l (num_of_int 0).

(** [x / len(l)] *)
Definition div_len (x : F) (n : nat) : result F :=
  if (n =? 0)%nat then Raise ZeroDivisionError
  else Ok (num_div x (num_of_int (Z.of_nat n))).

(** [max(l)]: an item replaces the running maximum when it is greater. *)
Definition py_max (l : list F) : result F :=
  match l with
  | [] => Raise ValueError
  | x :: r => Ok (fold_left (fun m y => if num_lt m y then y else m) r x)
  end.

(** [min(l)]: an item replaces the running minimum when it is smaller. *)
Definition py_min (l : list F) : result F :=
  match l with
  | [] => Raise ValueError
  | x :: r => Ok (fold_left (fun m y => if num_lt y m then y else m) r x)
  end.

(** Lines 360-369 and 380-389: the entry appended for a chunk. *)
Definition summarize (ts : option datetime) (chunk : list F) : result bucket :=
  let! avg := div_len (py_sum chunk) (List.length chunk) in
  let! mx := py_max chunk in
  let! mn := py_min chunk in
  Ok (mk_bucket ts avg mx mn (List.length chunk)).

(** [if current_chunk: ... aggregated_data.append({...})] *)
Definition flush (agg : list bucket) (ts : option datetime) (chunk : list F)
  : result (list bucket) :=
  match chunk with
  | [] => Ok agg
  | _ :: _ => let! b := summarize ts chunk in Ok (agg ++ [b])%list
  end.

(** Lines 335-341, up to the [continue], which is the caller's. *)
Definition parse_timestamp (timestamp_str : string) : result datetime :=
  match Strptime.strptime timestamp_str Strptime.slash_format with
  | Ok t => Ok t
  | Raise ValueError => Strptime.strptime timestamp_str Strptime.dash_format
  | Raise e => Raise e
  end.

(** [power_str.replace('.','').replace('-','').isdigit()] *)
Definition screen (power_str : string) : bool :=
  Str.isdigit (Str.remove "-" (Str.remove "." power_str)).

(** Lines 344-347. *)
Definition parse_power (power_str : string) : result F :=
  match (if screen power_str then py_float power_str
         else Ok (num_of_int 0)) with
  | Ok p => Ok p
  | Raise ValueError => Ok (num_of_int 0)
  | Raise e => Raise e
  end.

(** Lines 350-351. *)
Definition chunk_time_of (t : datetime) : result datetime :=
  let chunk_minute := (minute t / 15) * 15 in
  DT.replace t chunk_minute 0 0.

(** Lines 354-374: what a reading does to the open chunk before it is
    appended. *)
Definition open_chunk (st : state) (t chunk_time : datetime) : result state :=
  match current_timestamp st with
  | None =>
      Ok (mk_state (aggregated_data st) (current_chunk st)
            (Some chunk_time) (Some t))
  | Some cur =>
      if negb (DT.eqb chunk_time cur) then
        let! agg := flush (aggregated_data st) (current_timestamp st)
                      (current_chunk st) in
        Ok (mk_state agg [] (Some chunk_time) (Some t))
      else Ok st
  end.

(** Lines 329-376: the body of [for line in data_rows]. *)
Definition loop_body (st : state) (line : string) : result state :=
  let parts := Str.split "," line in
  if (2 <=? List.length parts)%nat then
    let timestamp_str := nth 0 parts EmptyString in
    let power_str := nth 1 parts EmptyString in
    match parse_timestamp timestamp_str with
    | Raise ValueError => Ok st
    | Raise e => Raise e
    | Ok t =>
        let! power := parse_power power_str in
        let! chunk_time := chunk_time_of t in
        let! st1 := open_chunk st t chunk_time in
        Ok (mk_state (aggregated_data st1) (current_chunk st1 ++ [power])%list
              (current_timestamp st1) (chunk_start_time st1))
    end
  else Ok st.

Fixpoint for_each (st : state) (data_rows : list string) : result state :=
  match data_rows with
  | [] => Ok st
  | line :: rest => let! st1 := loop_body st line in for_each st1 rest
  end.

(** Lines 323-389: [aggregated_data] once the last chunk is processed. *)
Definition aggregate (data_rows : list string) : result (list bucket) :=
  let! st := for_each init data_rows in
  flush (aggregated_data st) (current_timestamp st) (current_chunk st).

(** Lines 312-317 and 443-456: what the section does with the CSV text. *)
Inductive outcome : Type :=
| NoCsvData
| NoDataRows
| Aggregated (aggregated : list bucket)
| Fallback (e : exn).

Definition raw_data_samples (combined_csv : string) : outcome :=
  if Str.truthy combined_csv && Str.truthy (Str.strip combined_csv) then
    let lines := Str.split Str.newline (Str.strip combined_csv) in
    if (1 <? List.length lines)%nat then
      let data_rows := tl lines in
      match aggregate data_rows with
      | Ok agg => Aggregated agg
      | Raise e => Fallback e
      end
    else NoDataRows
  else NoCsvData.

(** Line 424: [c['avg_power'] > 50] *)
Definition productive (c : bucket) : bool :=
  num_lt (num_of_int 50) (avg_power c).

(** Line 424: [len([c for c in aggregated_data if c['avg_power'] > 50])] *)
Definition productive_chunks (agg : list bucket) : nat :=
  List.length (filter productive agg).

(** Line 431: [productive_chunks * 0.25], the hours that are printed. *)
Definition productive_hours (agg : list bucket) : F :=
  num_mul (num_of_int (Z.of_nat (productive_chunks agg)))
          (num_of_decimal false 25 2).

(** *** The readings the loop sees

    The same loop, read as a function of the readings that the lines
    carry.  These definitions are derived from the ones above and are
    proved equal to them below. *)

(** The timestamp with the minute rounded down to a multiple of 15 and the
    second and microsecond zeroed. *)
Definition window (t : datetime) : datetime :=
  mk_datetime (year t) (month t) (day t) (hour t) (minute t / 15 * 15) 0 0.

(** The value [parse_power] computes. *)
Definition power_of (power_str : string) : F :=
  if screen power_str then
    match py_float power_str with
    | Ok p => p
    | Raise _ => num_of_int 0
    end
  else num_of_int 0.

Definition is_ok {A : Type} (r : result A) : bool :=
  match r with
  | Ok _ => true
  | Raise _ => false
  end.

(** A line is a valid reading when it has two fields at least and its
    first field is a timestamp in one of the two formats. *)
Definition valid_line (line : string) : bool :=
  let parts := Str.split "," line in
  (2 <=? List.length parts)%nat
  && is_ok (parse_timestamp (nth 0 parts EmptyString)).

Definition reading : Type := datetime * F.

Definition reading_of (line : string) : option reading :=
  let parts := Str.split "," line in
  if (2 <=? List.length parts)%nat then
    match parse_timestamp (nth 0 parts EmptyString) with
    | Ok t => Some (t, power_of (nth 1 parts EmptyString))
    | Raise _ => None
    end
  else None.

Fixpoint readings_of (data_rows : list string) : list reading :=
  match data_rows with
  | [] => []
  | line :: rest =>
      match reading_of line with
      | Some r => r :: readings_of rest
      | None => readings_of rest
      end
  end.

Definition max_of (chunk : list F) : F :=
  match chunk with
  | [] => num_of_int 0
  | x :: r => fold_left (fun m y => if num_lt m y then y else m) r x
  end.

Definition min_of (chunk : list F) : F :=
  match chunk with
  | [] => num_of_int 0
  | x :: r => fold_left (fun m y => if num_lt y m then y else m) r x
  end.

Definition mean_of (chunk : list F) : F :=
  num_div (py_sum chunk) (num_of_int (Z.of_nat (List.length chunk))).

(** The entry [summarize] builds for a non-empty chunk. *)
Definition bucket_of (ts : option datetime) (chunk : list F) : bucket :=
  mk_bucket ts (mean_of chunk) (max_of chunk) (min_of chunk)
    (List.length chunk).

(** The effect of one reading on the variables of the loop. *)
Definition fold_reading (st : state) (r : reading) : state :=
  let '(t, p) := r in
  match current_timestamp st with
  | None =>
      mk_state (aggregated_data st) (current_chunk st ++ [p])%list
        (Some (window t)) (Some t)
  | Some cur =>
      if DT.eqb (window t) cur then
        mk_state (aggregated_data st) (current_chunk st ++ [p])%list
          (Some cur) (chunk_start_time st)
      else
        mk_state
          (aggregated_data st ++
             match current_chunk st with
             | [] => []
             | _ :: _ => [bucket_of (Some cur) (current_chunk st)]
             end)%list
          [p] (Some (window t)) (Some t)
  end.

(** [aggregated_data] after the last chunk is processed. *)
Definition final (st : state) : list bucket :=
  (aggregated_data st ++
     match current_chunk st with
     | [] => []
     | _ :: _ => [bucket_of (current_timestamp st) (current_chunk st)]
     end)%list.

(** The runs of consecutive readings that share a window, given the open
    run [g] of window [w]. *)
Fixpoint group_from (w : datetime) (g : list reading) (rs : list reading)
  : list (datetime * list reading) :=
  match rs with
  | [] => [(w, g)]
  | (t, p) :: rest =>
      if DT.eqb (window t) w then group_from w (g ++ [(t, p)])%list rest
      else (w, g) :: group_from (window t) [(t, p)] rest
  end.

Definition groups (rs : list reading) : list (datetime * list reading) :=
  match rs with
  | [] => []
  | (t, p) :: rest => group_from (window t) [(t, p)] rest
  end.

Definition bucket_of_group (wg : datetime * list reading) : bucket :=
  bucket_of (Some (fst wg)) (map snd (snd wg)).

(** Every reading of a run has the window of the run. *)
Definition run_ok (wg : datetime * list reading) : Prop :=
  snd wg <> [] /\ Forall (fun r => window (fst r) = fst wg) (snd wg).

Definition total_readings (agg : list bucket) : nat :=
  fold_right Nat.add 0%nat (map readings agg).

(** Lines 305-306 and 319: the rows are requested from
    [datetime.now() - timedelta(hours=24)] to [datetime.now()], the last 24
    hours. *)
Definition analysis_period_hours : Z := 24.

Definition analysis_period_days : Z := analysis_period_hours / 24.

(** The metric in the words of the specification: the hours divided by the
    number of days of the analysis period. *)
Definition productive_hours_per_day (days : Z) (agg : list bucket) : F :=
  num_div (productive_hours agg) (num_of_int days).

End Aggregation.

Arguments bucket F : clear implicits.
Arguments state F : clear implicits.
Arguments outcome F : clear implicits.
Arguments reading F : clear implicits.

(** A CSV text from its lines. *)
Definition csv (ls : list string) : string := Str.join Str.newline ls.


Definition no_newline (s : string) : bool :=
  forallb (fun a => negb (Ascii.eqb a Str.newline)) (Str.chars s).

(** Timestamps in chronological order, each one not before the previous. *)
Fixpoint nondecreasing (ts : list datetime) : bool :=
  match ts with
  | [] => true
  | t1 :: rest =>
      match rest with
      | [] => true
      | t2 :: _ =>
          match DT.compare t1 t2 with
          | Gt => false
          | _ => nondecreasing rest
          end
      end
  end.

(** ** Inputs of the examples *)

Definition tenth_rows : list string :=
  [ "2024/01/01 10:00:00,0.1";
    "2024/01/01 10:05:00,0.1";
    "2024/01/01 10:10:00,0.1" ].

(** Three readings that arrive out of order: 10:20, then 10:00, then 10:25. *)
Definition out_of_order_rows : list string :=
  [ "2024/01/01 10:20:00,100";
    "2024/01/01 10:00:00,200";
    "2024/01/01 10:25:00,300" ].

Definition reading_as_header : string := "2024/01/01 09:00:00,999".

Definition one_row : list string := [ "2024/01/01 10:00:00,5" ].


(** Two productive readings a day and an hour apart. *)
Definition two_day_rows : list string :=
  [ "2024/01/01 12:00:00,100";
    "2024/01/02 13:00:00,100" ].

(** A reading every five minutes from 10:00 to 10:20. *)
Definition five_minute_rows : list string :=
  [ "2024/01/01 10:00:00,100";
    "2024/01/01 10:05:00,200";
    "2024/01/01 10:10:00,300";
    "2024-01-01 10:15:00,400";
    "2024-01-01 10:20:00,500" ].

(** A line whose first field is in neither format. *)
Definition dotted_line : string := "2024.01.01 10:00:00,100".

(** ** The rest of the report *)

(** *** [get_status_icon] (lines 46-54) *)

Definition icons : list (string * string) :=
  [ ("success", "[OK]");
    ("warning", "[WARN]");
    ("error", "[ERROR]");
    ("info", "[INFO]") ].

(** [d.get(key, default)] on a dictionary given by its items. *)
Fixpoint dict_get (d : list (string * string)) (key default : string) : string :=
  match d with
  | [] => default
  | (k, v) :: rest =>
      if String.eqb k key then v else dict_get rest key default
  end.

Definition get_status_icon (status : string) : string :=
  dict_get icons status "[?]".

(** *** Listings that are cut short *)

(** [l[lo:hi]] for [0 <= lo <= hi]. *)
Definition py_slice {A : Type} (lo hi : nat) (l : list A) : list A :=
  firstn (hi - lo) (skipn lo l).

(** Lines 293-296: the alert types that are listed, and the [N] of
    ["... and N more"] when that line is printed. *)
Definition alert_types_listing {A : Type} (alert_types : list A)
  : list A * option nat :=
  (py_slice 0 5 alert_types,
   if (5 <? List.length alert_types)%nat
   then Some (List.length alert_types - 5)%nat
   else None).

(** Lines 475-487: the header that is printed, the rows that are listed and
    the [N] of ["... (N more panel data rows)"]; [None] when there is no
    panel-level data. *)
Definition panel_sample (aggregate_csv : string)
  : option (string * list string * option nat) :=
  if Str.truthy aggregate_csv && Str.truthy (Str.strip aggregate_csv) then
    let agg_lines := Str.split Str.newline (Str.strip aggregate_csv) in
    let heading := nth 0 agg_lines "No data" in
    if (1 <? List.length agg_lines)%nat then
      Some (heading, py_slice 1 6 agg_lines,
            if (6 <? List.length agg_lines)%nat
            then Some (List.length agg_lines - 6)%nat
            else None)
    else Some (heading, [], None)
  else None.

Section Report.

Context {F : Type} {num : PyNum F}.

(** *** The performance rating (lines 220-230) *)

Definition performance_rating (eff_pct : F) : string :=
  if num_lt (num_of_int 75) eff_pct then "[EXCELLENT]"
  else if num_lt (num_of_int 60) eff_pct then "[GOOD]"
  else if num_lt (num_of_int 45) eff_pct then "[FAIR]"
  else if num_lt (num_of_int 30) eff_pct then "[ACCEPTABLE]"
  else "[POOR]".

(** *** The 24-hour summary (lines 407-432) *)

(** [max(l, key=key)]: an item replaces the running maximum when its key
    is greater. *)
Definition py_max_key {A : Type} (key : A -> F) (l : list A) : result A :=
  match l with
  | [] => Raise ValueError
  | x :: r =>
      Ok (fold_left (fun m y => if num_lt (key m) (key y) then y else m) r x)
  end.

(** The values the summary prints.  [lowest_power] is the source's
    [min_power] and [productive_count] its [productive_chunks], under names
    that are free here; [peak_chunk] is the entry whose ['timestamp'] is
    printed as the peak time; [low_chunks] is
    [total_chunks - productive_chunks]. *)
Record summary : Type := mk_summary {
  total_chunks : nat;
  peak_power : F;
  lowest_power : F;
  avg_power_24h : F;
  peak_chunk : bucket F;
  energy_kwh : F;
  productive_count : nat;
  low_chunks : Z
}.

(** Lines 407-432; [None] when [aggregated_data] is empty. *)
Definition summary_24h (aggregated_data : list (bucket F))
  : result (option summary) :=
  match aggregated_data with
  | [] => Ok None
  | _ :: _ =>
      let all_avg_powers := map avg_power aggregated_data in
      let all_max_powers := map max_power aggregated_data in
      let total := List.length aggregated_data in
      let! peak := py_max all_max_powers in
      let! lowest := py_min (map min_power aggregated_data) in
      let! avg := div_len (py_sum all_avg_powers) (List.length all_avg_powers) in
      let! top := py_max_key max_power aggregated_data in
      let energy :=
        num_div (num_mul (py_sum all_avg_powers) (num_of_decimal false 25 2))
                (num_of_int 1000) in
      let productive_n := productive_chunks aggregated_data in
      Ok (Some (mk_summary total peak lowest avg top energy productive_n
                  (Z.of_nat total - Z.of_nat productive_n)))
  end.

End Report.

Arguments summary F : clear implicits.

(** *** The weekly trend (lines 172-190)

    [daily_energy.items()] is taken as the list of its pairs of a date and
    an energy; a dictionary is the list of its items in the order of their
    insertion.  An error of this part is a [KeyError] or one of [exn]. *)

Inductive attempt (A : Type) : Type :=
| Done (a : A)
| KeyError
| Raised (e : exn).

Arguments Done {A} a.
Arguments KeyError {A}.
Arguments Raised {A} e.

Definition attempt_bind {A B : Type} (r : attempt A) (k : A -> attempt B)
  : attempt B :=
  match r with
  | Done a => k a
  | KeyError => KeyError
  | Raised e => Raised e
  end.

(** The decimal digit of the units of [n]. *)
Definition digit_char (n : Z) : ascii := ascii_of_nat (48 + Z.to_nat (n mod 10)).

(** [date.strftime('%Y-%m-%d')] for a year of four digits, as the years of
    the timestamps of a series are: the year on four digits, the month and
    the day on two. *)
Definition strftime_date (date : datetime) : string :=
  let y := year date in
  let m := month date in
  let d := day date in
  String (digit_char (y / 1000)) (String (digit_char (y / 100))
    (String (digit_char (y / 10)) (String (digit_char y)
      (String "-" (String (digit_char (m / 10)) (String (digit_char m)
        (String "-" (String (digit_char (d / 10)) (String (digit_char d)
          EmptyString))))))))).

(** [sorted(keys)]: the strings in increasing order, by insertion. *)
Fixpoint insert_key (key : string) (keys : list string) : list string :=
  match keys with
  | [] => [key]
  | k :: rest =>
      if String.leb key k then key :: keys else k :: insert_key key rest
  end.

Definition sorted (keys : list string) : list string :=
  fold_right insert_key [] keys.

(** The order of the days: the year, then the month, then the day. *)
Definition date_compare (t1 t2 : datetime) : comparison :=
  DT.lex_compare [year t1; month t1; day t1] [year t2; month t2; day t2].

Section Weekly.

Context {F : Type} {num : PyNum F}.

(** [d[key]] *)
Fixpoint dict_item (d : list (string * F)) (key : string) : attempt F :=
  match d with
  | [] => KeyError
  | (k, v) :: rest => if String.eqb k key then Done v else dict_item rest key
  end.

(** [key in d] *)
Definition dict_contains (d : list (string * F)) (key : string) : bool :=
  match dict_item d key with
  | Done _ => true
  | _ => false
  end.

(** [d[key] = v]: the value of a key of [d] is replaced where it stands, a
    new key goes to the end. *)
Fixpoint dict_set (d : list (string * F)) (key : string) (v : F)
  : list (string * F) :=
  match d with
  | [] => [(key, v)]
  | (k, x) :: rest =>
      if String.eqb k key then (k, v) :: rest
      else (k, x) :: dict_set rest key v
  end.

(** Lines 174-179: the body of [for date, energy in daily_energy.items()]. *)
Definition add_day (daily_totals : list (string * F)) (item : datetime * F)
  : attempt (list (string * F)) :=
  let '(date, energy) := item in
  let date_str := strftime_date date in
  if negb (dict_contains daily_totals date_str) then
    Done (dict_set daily_totals date_str energy)
  else
    attempt_bind (dict_item daily_totals date_str) (fun v =>
    Done (dict_set daily_totals date_str (num_add v energy))).

Fixpoint accumulate (daily_totals : list (string * F))
  (items : list (datetime * F)) : attempt (list (string * F)) :=
  match items with
  | [] => Done daily_totals
  | item :: rest =>
      attempt_bind (add_day daily_totals item) (fun d => accumulate d rest)
  end.

(** Lines 182-184: the lines that are printed, a date and its energy. *)
Fixpoint day_lines_of (daily_totals : list (string * F)) (keys : list string)
  : attempt (list (string * F)) :=
  match keys with
  | [] => Done []
  | date_str :: rest =>
      attempt_bind (dict_item daily_totals date_str) (fun energy =>
      attempt_bind (day_lines_of daily_totals rest) (fun lines =>
      Done ((date_str, energy) :: lines)))
  end.

Record weekly : Type := mk_weekly {
  day_lines : list (string * F);
  total_week : F;
  avg_daily : F
}.

(** Lines 173-190. *)
Definition weekly_trend (daily_energy : list (datetime * F)) : attempt weekly :=
  attempt_bind (accumulate [] daily_energy) (fun daily_totals =>
  attempt_bind (day_lines_of daily_totals (sorted (map fst daily_totals)))
    (fun lines =>
  let total := py_sum (map snd daily_totals) in
  attempt_bind
    match daily_totals with
    | [] => Done (num_of_int 0)
    | _ :: _ =>
        match div_len total (List.length daily_totals) with
        | Ok q => Done q
        | Raise e => Raised e
        end
    end (fun avg =>
  Done (mk_weekly lines total avg)))).

(** The energies of the items of one day, in the order of the items. *)
Definition energies_of (date_str : string) (items : list (datetime * F))
  : list F :=
  map snd (filter (fun item => String.eqb (strftime_date (fst item)) date_str)
             items).

(** What a dictionary holds at a key once the energies [es] are added to
    it, one after the other. *)
Definition added (start : attempt F) (es : list F) : attempt F :=
  match start, es with
  | Done v, _ => Done (fold_left num_add es v)
  | KeyError, e :: rest => Done (fold_left num_add rest e)
  | other, _ => other
  end.

End Weekly.

Arguments weekly F : clear implicits.

(** The order of the ratings, the worst first. *)
Definition rating_rank (rating : string) : nat :=
  if String.eqb rating "[EXCELLENT]" then 4
  else if String.eqb rating "[GOOD]" then 3
  else if String.eqb rating "[FAIR]" then 2
  else if String.eqb rating "[ACCEPTABLE]" then 1
  else 0.

(** The item that is kept when [y] meets the running extreme [m]: [y] when
    it is beyond [m] in the order [lt]. *)
Definition pick {A : Type} (lt : A -> A -> bool) (m y : A) : A :=
  if lt m y then y else m.

(** Energies of three days, the first day in two parts. *)
Definition week_items : list (datetime * float) :=
  [ (mk_datetime 2024 1 2 0 0 0 0, 5.5%float);
    (mk_datetime 2023 12 31 0 0 0 0, 7%float);
    (mk_datetime 2024 1 2 12 0 0 0, 1.25%float);
    (mk_datetime 2024 1 1 0 0 0 0, 3%float) ].

(** White space that holds line breaks. *)
Definition blank_lines : string :=
  String Str.newline (String " " (String Str.newline EmptyString)).

(** A panel-level text of a header and seven rows. *)
Definition panel_text : string :=
  csv [ "Datetime,A1,A2,A3";
        "2024/01/01 10:00:00,1,2,3"; "2024/01/01 10:01:00,1,2,3";
        "2024/01/01 10:02:00,1,2,3"; "2024/01/01 10:03:00,1,2,3";
        "2024/01/01 10:04:00,1,2,3"; "2024/01/01 10:05:00,1,2,3";
        "2024/01/01 10:06:00,1,2,3" ].

(** The number 1 of binary64: mantissa [2^52], exponent [-52]. *)
Definition sf_one : spec_float := S754_finite false 4503599627370496 (-52).

(** Every character is white space. *)
Definition blank (s : string) : bool := forallb Str.isspace (Str.chars s).

(** The number of occurrences of a character. *)
Definition count_char (c : ascii) (s : string) : nat :=
  List.length (filter (Ascii.eqb c) (Str.chars s)).

(** * Properties *)

(** ** The library functions *)

Lemma DT_eqb_eq (t1 t2 : datetime) : DT.eqb t1 t2 = true <-> t1 = t2.
Proof.
  destruct t1, t2; unfold DT.eqb; simpl.
  rewrite !andb_true_iff, !Z.eqb_eq.
  split; [intuition congruence | intros E; injection E; intuition].
Qed.

Lemma DT_eqb_neq (t1 t2 : datetime) : DT.eqb t1 t2 = false <-> t1 <> t2.
Proof.
  rewrite <- DT_eqb_eq. destruct (DT.eqb t1 t2); intuition congruence.
Qed.

Lemma make_valid y m d H M S us t :
  DT.make y m d H M S us = Ok t -> DT.valid t = true.
Proof.
  unfold DT.make. destruct (DT.valid _) eqn:V; intros E; inversion E.
  now subst.
Qed.

Lemma make_raises y m d H M S us e :
  DT.make y m d H M S us = Raise e -> e = ValueError.
Proof.
  unfold DT.make. destruct (DT.valid _); intros E; now inversion E.
Qed.

Lemma strptime_valid text f t :
  Strptime.strptime text f = Ok t -> DT.valid t = true.
Proof.
  unfold Strptime.strptime.
  destruct (Strptime.pattern f (Str.chars text)) as [|[[[[[[y mo] dd] hh] mi] ss] rest] l];
    [discriminate|].
  destruct rest; [apply make_valid | discriminate].
Qed.

Lemma strptime_raises text f e :
  Strptime.strptime text f = Raise e -> e = ValueError.
Proof.
  unfold Strptime.strptime.
  destruct (Strptime.pattern f (Str.chars text)) as [|[[[[[[y mo] dd] hh] mi] ss] rest] l].
  - intros E; now inversion E.
  - destruct rest; [apply make_raises | intros E; now inversion E].
Qed.

Example strptime_accepts :
  Strptime.strptime "2024/1/5 1:2:3" Strptime.slash_format
  = Ok (mk_datetime 2024 1 5 1 2 3 0)
  /\ Strptime.strptime "2024/01/ 5   10:00:00" Strptime.slash_format
     = Ok (mk_datetime 2024 1 5 10 0 0 0)
  /\ Strptime.strptime "2024-02-29 23:59:59" Strptime.dash_format
     = Ok (mk_datetime 2024 2 29 23 59 59 0).
Proof. repeat split; vm_compute; reflexivity. Qed.

Example strptime_rejects :
  map (fun text => Strptime.strptime text Strptime.slash_format)
    [ "2023/02/29 00:00:00"; "0000/01/01 00:00:00"; "2024/01/01 10:00:60";
      "2024/01/01 10:00:75"; "2024/01/01 24:00:00"; "2024/13/01 00:00:00";
      "2024/01/01 10:00:00 "; " 2024/01/01 10:00:00"; "2024/01/015 10:00:00";
      "2024-01-01 10:00:00" ]
  = repeat (Raise ValueError) 10.
Proof. vm_compute. reflexivity. Qed.

(** ** The chronological order *)

Lemma DT_compare_eq (t1 t2 : datetime) : DT.compare t1 t2 = Eq -> t1 = t2.
Proof.
destruct t1, t2. unfold DT.compare, DT.fields. simpl.
repeat match goal with
       | |- context [(?a ?= ?b)%Z] =>
           destruct (Z.compare_spec a b); try discriminate; subst
       end.
reflexivity.
Qed.

Lemma DT_le_neq_lt (t1 t2 : datetime) :
  DT.le t1 t2 -> t1 <> t2 -> DT.lt t1 t2.
Proof.
unfold DT.le, DT.lt. intros L N.
destruct (DT.compare t1 t2) eqn:C; [|reflexivity|congruence].
apply DT_compare_eq in C. contradiction.
Qed.

Lemma lex_compare_trans (a : list Z) : forall b c,
  DT.lex_compare a b = Lt -> DT.lex_compare b c = Lt ->
  DT.lex_compare a c = Lt.
Proof.
induction a as [|x a IH]; intros [|y b] [|z c]; simpl;
  try discriminate; try reflexivity.
destruct (Z.compare_spec x y) as [E1|L1|G1]; try discriminate;
  destruct (Z.compare_spec y z) as [E2|L2|G2]; try discriminate;
  intros H1 H2.
- subst. rewrite Z.compare_refl. eapply IH; eassumption.
- subst. now apply Z.compare_lt_iff in L2 as ->.
- subst. now apply Z.compare_lt_iff in L1 as ->.
- assert (x < z) as L by lia. now apply Z.compare_lt_iff in L as ->.
Qed.

Lemma DT_lt_trans (t1 t2 t3 : datetime) :
  DT.lt t1 t2 -> DT.lt t2 t3 -> DT.lt t1 t3.
Proof. unfold DT.lt, DT.compare. apply lex_compare_trans. Qed.

Section Loop.

Context {F : Type} {num : PyNum F}.

Lemma parse_timestamp_valid s t :
  parse_timestamp s = Ok t -> DT.valid t = true.
Proof.
  unfold parse_timestamp.
  destruct (Strptime.strptime s Strptime.slash_format) as [t1|e] eqn:E1.
  - intros E; inversion E; subst. eapply strptime_valid; eauto.
  - destruct e; [apply strptime_valid | discriminate].
Qed.

Lemma parse_timestamp_raises s e :
  parse_timestamp s = Raise e -> e = ValueError.
Proof.
  unfold parse_timestamp.
  destruct (Strptime.strptime s Strptime.slash_format) as [t1|e1] eqn:E1;
    [discriminate|].
  apply strptime_raises in E1. subst e1. apply strptime_raises.
Qed.

Lemma py_float_raises s e : py_float (F:=F) s = Raise e -> e = ValueError.
Proof.
  unfold py_float.
  destruct (match Str.chars s with
            | [] => (false, Str.chars s)
            | c :: r => if Ascii.eqb c "-" then (true, r) else (false, Str.chars s)
            end) as [neg body].
  destruct (span_decimal body) as [int_part rest].
  destruct rest as [|c frac_part].
  - destruct int_part; intros E; now inversion E.
  - destruct (_ && _); intros E; now inversion E.
Qed.

Lemma parse_power_ok s : parse_power (F:=F) s = Ok (power_of s).
Proof.
  unfold parse_power, power_of.
  destruct (screen s); [|reflexivity].
  destruct (py_float s) as [p|e] eqn:E; [reflexivity|].
  apply py_float_raises in E. now subst e.
Qed.

Lemma window_valid t : DT.valid t = true -> DT.valid (window t) = true.
Proof.
  unfold window, DT.valid, DT.in_range. simpl. intros V.
  rewrite !andb_true_iff in V. rewrite !andb_true_iff.
  destruct V as [[[[[[Y Mo] D] H] [M1 M2]] S] U].
  apply Z.leb_le in M1, M2.
  repeat split; try tauto; apply Z.leb_le; try lia.
  - apply Z.mul_nonneg_nonneg; [apply Z.div_pos|]; lia.
  - pose proof (Z.mul_div_le (minute t) 15). lia.
Qed.

Lemma chunk_time_of_ok t :
  DT.valid t = true -> chunk_time_of t = Ok (window t).
Proof.
  intros V. apply window_valid in V.
  unfold chunk_time_of, DT.replace, DT.make.
  fold (window t). now rewrite V.
Qed.

Lemma flush_ok agg ts (chunk : list F) :
  flush agg ts chunk
  = Ok (agg ++ match chunk with
               | [] => []
               | _ :: _ => [bucket_of ts chunk]
               end).
Proof.
  destruct chunk; simpl; [now rewrite app_nil_r | reflexivity].
Qed.

(** *** The loop body never raises *)

Lemma open_chunk_ok (st : state F) t w :
  open_chunk st t w
  = Ok (match current_timestamp st with
        | None =>
            mk_state (aggregated_data st) (current_chunk st) (Some w) (Some t)
        | Some cur =>
            if DT.eqb w cur then st
            else mk_state
                   (aggregated_data st ++
                      match current_chunk st with
                      | [] => []
                      | _ :: _ => [bucket_of (Some cur) (current_chunk st)]
                      end)
                   [] (Some w) (Some t)
        end).
Proof.
  unfold open_chunk. destruct (current_timestamp st) as [cur|]; [|reflexivity].
  destruct (DT.eqb w cur); simpl; [reflexivity|].
  now rewrite flush_ok.
Qed.

Lemma loop_body_step (st : state F) line :
  loop_body st line
  = Ok (match reading_of line with
        | Some r => fold_reading st r
        | None => st
        end).
Proof.
  unfold loop_body, reading_of.
  destruct (2 <=? List.length (Str.split "," line))%nat; [|reflexivity].
  destruct (parse_timestamp _) as [t|e] eqn:E.
  - rewrite parse_power_ok. simpl.
    rewrite (chunk_time_of_ok t (parse_timestamp_valid _ _ E)). simpl.
    rewrite open_chunk_ok. simpl.
    destruct st as [agg chunk [cur|] start]; simpl; [|reflexivity].
    destruct (DT.eqb (window t) cur) eqn:W; simpl; [|reflexivity].
    apply DT_eqb_eq in W. now subst cur.
  - apply parse_timestamp_raises in E. now subst e.
Qed.

Lemma for_each_fold (st : state F) data_rows :
  for_each st data_rows = Ok (fold_left fold_reading (readings_of data_rows) st).
Proof.
  revert st. induction data_rows as [|line rest IH]; intros st; simpl.
  - reflexivity.
  - rewrite loop_body_step. simpl.
    destruct (reading_of line); simpl; apply IH.
Qed.

Lemma aggregate_final data_rows :
  aggregate (F:=F) data_rows
  = Ok (final (fold_left fold_reading (readings_of data_rows) init)).
Proof.
  unfold aggregate. rewrite for_each_fold. simpl.
  now rewrite flush_ok.
Qed.

(** *** The chunks are the runs of equal windows *)

Lemma fold_group_from rs : forall agg w r g start,
  final (fold_left fold_reading rs
           (mk_state agg (map snd (r :: g)) (Some w) start))
  = agg ++ map bucket_of_group (group_from (F:=F) w (r :: g) rs).
Proof.
  induction rs as [|[t p] rest IH]; intros agg w r g start.
  - reflexivity.
  - cbn [fold_left group_from fold_reading current_timestamp
           aggregated_data current_chunk chunk_start_time].
    destruct (DT.eqb (window t) w) eqn:W.
    + replace (map snd (r :: g) ++ [p]) with (map snd (r :: (g ++ [(t, p)])))
        by (simpl; now rewrite map_app).
      rewrite IH. reflexivity.
    + change [p] with (map snd [(t, p)]).
      rewrite IH. cbn [map]. rewrite <- app_assoc. reflexivity.
Qed.

Lemma final_groups rs :
  final (fold_left fold_reading rs init)
  = map bucket_of_group (groups (F:=F) rs).
Proof.
  destruct rs as [|[t p] rest]; [reflexivity|].
  cbn [fold_left fold_reading init current_timestamp aggregated_data
         current_chunk chunk_start_time app groups].
  change [p] with (map snd [(t, p)]).
  now rewrite fold_group_from.
Qed.

(** The aggregation always returns, and returns one entry per run. *)
Lemma aggregate_groups data_rows :
  aggregate (F:=F) data_rows
  = Ok (map bucket_of_group (groups (readings_of data_rows))).
Proof. now rewrite aggregate_final, final_groups. Qed.

(** *** The runs *)

Lemma group_from_concat rs : forall w (g : list (reading F)),
  List.concat (map snd (group_from w g rs)) = g ++ rs.
Proof.
  induction rs as [|[t p] rest IH]; intros w g; simpl.
  - reflexivity.
  - destruct (DT.eqb (window t) w); simpl.
    + rewrite IH, <- app_assoc. reflexivity.
    + rewrite IH. reflexivity.
Qed.

Lemma groups_concat (rs : list (reading F)) :
  List.concat (map snd (groups rs)) = rs.
Proof.
  destruct rs as [|[t p] rest]; [reflexivity|].
  unfold groups. now rewrite group_from_concat.
Qed.

Lemma group_from_ok rs : forall w (g : list (reading F)),
  run_ok (w, g) -> Forall run_ok (group_from w g rs).
Proof.
  induction rs as [|[t p] rest IH]; intros w g [Hne Hw]; simpl.
  - constructor; [split; assumption | constructor].
  - destruct (DT.eqb (window t) w) eqn:W.
    + apply DT_eqb_eq in W. apply IH. split; simpl.
      * destruct g; discriminate.
      * apply Forall_app; split; [assumption|].
        constructor; [assumption | constructor].
    + constructor; [split; assumption|].
      apply IH. split; simpl; [discriminate|].
      constructor; [reflexivity | constructor].
Qed.

Lemma groups_ok (rs : list (reading F)) : Forall run_ok (groups rs).
Proof.
  destruct rs as [|[t p] rest]; [constructor|].
  apply group_from_ok. split; simpl; [discriminate|].
  constructor; [reflexivity | constructor].
Qed.

(** Rounding down to the window preserves the chronological order. *)
Lemma window_mono (t1 t2 : datetime) :
  DT.le t1 t2 -> DT.le (window t1) (window t2).
Proof.
destruct t1 as [y1 mo1 d1 h1 mi1 s1 u1], t2 as [y2 mo2 d2 h2 mi2 s2 u2].
unfold DT.le, DT.compare, DT.fields, window. simpl.
destruct (y1 ?= y2); try tauto.
destruct (mo1 ?= mo2); try tauto.
destruct (d1 ?= d2); try tauto.
destruct (h1 ?= h2); try tauto.
intros L.
assert (mi1 <= mi2) as M.
{ destruct (Z.compare_spec mi1 mi2); [lia | lia | exfalso; now apply L]. }
assert (mi1 / 15 * 15 <= mi2 / 15 * 15) as W.
{ apply Z.mul_le_mono_nonneg_r; [lia | apply Z.div_le_mono; lia]. }
destruct (Z.compare_spec (mi1 / 15 * 15) (mi2 / 15 * 15));
  [discriminate | discriminate | lia].
Qed.

Lemma group_from_head rs : forall w (g : list (reading F)),
  exists g' tl, group_from w g rs = (w, g') :: tl.
Proof.
induction rs as [|[t p] rest IH]; intros w g; simpl.
- eauto.
- destruct (DT.eqb (window t) w); [apply IH | eauto].
Qed.

Lemma group_from_sorted rs : forall w (g : list (reading F)) t0,
  window t0 = w ->
  Sorted DT.le (t0 :: map fst rs) ->
  Sorted DT.lt (map fst (group_from w g rs)).
Proof.
induction rs as [|[t p] rest IH]; intros w g t0 W S; simpl.
- repeat constructor.
- simpl in S. inversion S as [|? ? S' H]; subst.
  inversion H as [|? ? L]; subst.
  destruct (DT.eqb (window t) (window t0)) eqn:E.
  + apply DT_eqb_eq in E. apply (IH _ _ t); [assumption | assumption].
  + simpl. constructor.
    * apply (IH _ _ t); [reflexivity | assumption].
    * destruct (group_from_head rest (window t) [(t, p)]) as (g' & tl & ->).
      simpl. constructor.
      apply DT_le_neq_lt; [now apply window_mono|].
      apply DT_eqb_neq in E. congruence.
Qed.

Lemma groups_sorted (rs : list (reading F)) :
  Sorted DT.le (map fst rs) -> StronglySorted DT.lt (map fst (groups rs)).
Proof.
intros S. apply Sorted_StronglySorted; [exact DT_lt_trans|].
destruct rs as [|[t p] rest]; simpl; [constructor|].
apply (group_from_sorted rest _ _ t); [reflexivity | exact S].
Qed.

Lemma readings_of_length data_rows :
  List.length (readings_of (F:=F) data_rows)
  = List.length (filter valid_line data_rows).
Proof.
induction data_rows as [|line rest IH]; simpl; [reflexivity|].
unfold reading_of, valid_line.
destruct (2 <=? List.length (Str.split "," line))%nat; simpl; [|assumption].
destruct (parse_timestamp _); simpl; now rewrite IH.
Qed.

Lemma total_readings_groups (gs : list (datetime * list (reading F))) :
  total_readings (map bucket_of_group gs)
  = List.length (List.concat (map snd gs)).
Proof.
unfold total_readings.
induction gs as [|[w g] gs IH]; simpl; [reflexivity|].
now rewrite IH, length_app, length_map.
Qed.

(** C1 (bucket coverage).  Whatever the rows are, the aggregation returns,
    and the ['readings'] counts of the entries it returns add up to the
    number of valid readings among the rows (the lines with two fields at
    least and a timestamp in one of the two formats): each of them is
    counted once. *)
Theorem bucket_coverage (data_rows : list string) :
  exists agg : list (bucket F),
    aggregate data_rows = Ok agg
    /\ total_readings agg = List.length (filter valid_line data_rows).
Proof.
exists (map bucket_of_group (groups (readings_of data_rows))). split.
- apply aggregate_groups.
- now rewrite total_readings_groups, groups_concat, readings_of_length.
Qed.

(** C2 (window assignment).  The entries returned are those of consecutive
    runs of the readings; every reading lies in exactly one run, and the
    ['timestamp'] of the entry of its run is the reading's timestamp with
    the minute replaced by [minute / 15 * 15] and the second and the
    microsecond zeroed. *)
Theorem window_assignment (data_rows : list string) :
  exists runs : list (datetime * list (reading F)),
    aggregate data_rows = Ok (map bucket_of_group runs)
    /\ List.concat (map snd runs) = readings_of data_rows
    /\ Forall (fun run =>
                 snd run <> []
                 /\ readings (bucket_of_group run) = List.length (snd run)
                 /\ Forall (fun r : reading F =>
                              let t := fst r in
                              timestamp (bucket_of_group run)
                              = Some (mk_datetime (year t) (month t) (day t)
                                        (hour t) (minute t / 15 * 15) 0 0))
                           (snd run))
         runs.
Proof.
exists (groups (readings_of data_rows)). split; [apply aggregate_groups|].
split; [apply groups_concat|].
eapply Forall_impl; [|apply groups_ok].
intros [w g] [Hne Hw]. simpl in *. split; [assumption|]. split.
- unfold bucket_of_group, bucket_of. simpl. apply length_map.
- eapply Forall_impl; [|exact Hw]. intros r E. simpl. now rewrite <- E.
Qed.

(** C3 (bucket ordering).  When the timestamp of every valid reading is not
    before that of the previous one, the ['timestamp'] values of the entries
    returned are strictly increasing: each is before all that follow. *)
Theorem bucket_ordering (data_rows : list string) :
  Sorted DT.le (map fst (readings_of (F:=F) data_rows)) ->
  exists (agg : list (bucket F)) (starts : list datetime),
    aggregate data_rows = Ok agg
    /\ map timestamp agg = map Some starts
    /\ StronglySorted DT.lt starts.
Proof.
intros S.
exists (map bucket_of_group (groups (readings_of data_rows))).
exists (map fst (groups (readings_of data_rows))).
split; [apply aggregate_groups|]. split.
- rewrite !map_map. reflexivity.
- now apply groups_sorted.
Qed.

End Loop.

(** ** The mean of a chunk *)

Section ExactMean.

Local Open Scope Q_scope.

Lemma exact_lt_true (x y : Q) : num_lt x y = true -> x <= y.
Proof.
simpl. unfold Exact.lt. intros H. apply negb_true_iff in H.
destruct (Qlt_le_dec x y) as [L|L]; [now apply Qlt_le_weak|].
apply Qle_bool_iff in L. congruence.
Qed.

Lemma exact_lt_false (x y : Q) : num_lt x y = false -> y <= x.
Proof.
simpl. unfold Exact.lt. intros H. apply negb_false_iff in H.
now apply Qle_bool_iff.
Qed.

Lemma fold_max_upper (r : list Q) : forall x,
  let m := fold_left (fun m y => if num_lt m y then y else m) r x in
  x <= m /\ Forall (fun y => y <= m) r.
Proof.
induction r as [|y r IH]; intros x; simpl.
- split; [apply Qle_refl | constructor].
- destruct (IH (if Exact.lt x y then y else x)) as [A B].
  destruct (Exact.lt x y) eqn:E.
  + apply (exact_lt_true x y) in E. split; [|constructor; assumption].
    eapply Qle_trans; eassumption.
  + apply (exact_lt_false x y) in E. split; [assumption|].
    constructor; [|assumption]. eapply Qle_trans; eassumption.
Qed.

Lemma fold_min_lower (r : list Q) : forall x,
  let m := fold_left (fun m y => if num_lt y m then y else m) r x in
  m <= x /\ Forall (fun y => m <= y) r.
Proof.
induction r as [|y r IH]; intros x; simpl.
- split; [apply Qle_refl | constructor].
- destruct (IH (if Exact.lt y x then y else x)) as [A B].
  destruct (Exact.lt y x) eqn:E.
  + apply (exact_lt_true y x) in E. split; [|constructor; assumption].
    eapply Qle_trans; eassumption.
  + apply (exact_lt_false y x) in E. split; [assumption|].
    constructor; [|assumption]. eapply Qle_trans; eassumption.
Qed.

Lemma sum_upper (l : list Q) (M : Q) : forall a,
  Forall (fun y => y <= M) l ->
  fold_left Qplus l a <= a + inject_Z (Z.of_nat (List.length l)) * M.
Proof.
induction l as [|y l IH]; intros a H.
- simpl. setoid_replace (a + 0 * M) with a by ring. apply Qle_refl.
- inversion H as [|? ? Hy Hl]; subst. cbn [fold_left List.length].
  eapply Qle_trans; [apply IH; assumption|].
  rewrite Nat2Z.inj_succ, <- Z.add_1_r, inject_Z_plus.
  setoid_replace ((inject_Z (Z.of_nat (List.length l)) + inject_Z 1) * M)
    with (M + inject_Z (Z.of_nat (List.length l)) * M) by ring.
  rewrite Qplus_assoc. apply Qplus_le_compat; [|apply Qle_refl].
  apply Qplus_le_compat; [apply Qle_refl | assumption].
Qed.

Lemma sum_lower (l : list Q) (M : Q) : forall a,
  Forall (fun y => M <= y) l ->
  a + inject_Z (Z.of_nat (List.length l)) * M <= fold_left Qplus l a.
Proof.
induction l as [|y l IH]; intros a H.
- simpl. setoid_replace (a + 0 * M) with a by ring. apply Qle_refl.
- inversion H as [|? ? Hy Hl]; subst. cbn [fold_left List.length].
  eapply Qle_trans; [|apply IH; assumption].
  rewrite Nat2Z.inj_succ, <- Z.add_1_r, inject_Z_plus.
  setoid_replace ((inject_Z (Z.of_nat (List.length l)) + inject_Z 1) * M)
    with (M + inject_Z (Z.of_nat (List.length l)) * M) by ring.
  rewrite Qplus_assoc. apply Qplus_le_compat; [|apply Qle_refl].
  apply Qplus_le_compat; [apply Qle_refl | assumption].
Qed.

Lemma mean_between (x : Q) (r : list Q) :
  min_of (x :: r) <= mean_of (x :: r) /\ mean_of (x :: r) <= max_of (x :: r).
Proof.
pose proof (fold_max_upper r x) as [Ux Ur].
pose proof (fold_min_lower r x) as [Lx Lr].
unfold mean_of, py_sum, min_of, max_of. cbn [num_div num_add num_of_int exact].
set (M := fold_left _ r x) in *.
set (m := fold_left (fun m y => if num_lt y m then y else m) r x) in *.
set (n := inject_Z (Z.of_nat (List.length (x :: r)))).
assert (0 < n) as Hn.
{ unfold n. change 0 with (inject_Z 0). rewrite <- Zlt_Qlt.
  cbn [List.length]. lia. }
split.
- apply Qle_shift_div_l; [assumption|].
  pose proof (sum_lower (x :: r) m (inject_Z 0)) as S.
  eapply Qle_trans; [|apply S; constructor; assumption].
  fold n. setoid_replace (inject_Z 0 + n * m) with (m * n) by ring.
  apply Qle_refl.
- apply Qle_shift_div_r; [assumption|].
  pose proof (sum_upper (x :: r) M (inject_Z 0)) as S.
  eapply Qle_trans; [apply S; constructor; assumption|].
  fold n. setoid_replace (inject_Z 0 + n * M) with (M * n) by ring.
  apply Qle_refl.
Qed.

(** C4 (mean bound), as amended.  When the arithmetic is exact, every entry
    returned has its ['avg_power'], the sum of the powers of the chunk
    divided by their number, between its ['min_power'] and its
    ['max_power']. *)
Theorem mean_bound_exact (data_rows : list string) :
  exists agg : list (bucket Q),
    aggregate data_rows = Ok agg
    /\ Forall (fun b => min_power b <= avg_power b
                        /\ avg_power b <= max_power b) agg.
Proof.
exists (map bucket_of_group (groups (readings_of data_rows))).
split; [apply aggregate_groups|].
apply Forall_map. eapply Forall_impl; [|apply groups_ok].
intros [w g] [Hne _]. unfold bucket_of_group, bucket_of. simpl in *.
destruct g as [|r g]; [contradiction|]. apply mean_between.
Qed.

End ExactMean.

(** C4 (mean bound) fails in binary64: three readings of 0.1 in one window
    add up to 0.30000000000000004, whose third is 0.10000000000000002,
    above the maximum 0.1 of the chunk. *)
Lemma mean_bound_binary64_counterexample :
  exists b : bucket float,
    aggregate tenth_rows = Ok [b]
    /\ readings b = 3%nat
    /\ PrimFloat.leb (avg_power b) (max_power b) = false.
Proof.
eexists. split; [vm_compute; reflexivity|]. split; vm_compute; reflexivity.
Qed.

(** The compensated sum of CPython 3.12 gives the same mean on these
    readings. *)
Example mean_bound_compensated :
  let l := [0.1; 0.1; 0.1]%float in
  map power_of (map (fun line => nth 1 (Str.split "," line) EmptyString)
                  tenth_rows) = l
  /\ PrimFloat.leb (PrimFloat.div (Binary64.compensated_sum l) 3) 0.1 = false.
Proof. split; vm_compute; reflexivity. Qed.

(** ** Lines that are skipped, powers that are defaulted *)

Section Lines.

Context {F : Type} {num : PyNum F}.

Lemma readings_of_app (rows1 rows2 : list string) :
  readings_of (F:=F) (rows1 ++ rows2) = readings_of rows1 ++ readings_of rows2.
Proof.
induction rows1 as [|line rest IH]; simpl; [reflexivity|].
destruct (reading_of line); simpl; now rewrite IH.
Qed.

(** C5 (timestamp parsing).  On a line with two fields at least, the first
    field is parsed with the slash format, whose result stands when it
    succeeds; only when it fails is the dash format tried; when both fail
    the loop body leaves every variable as it was and raises nothing, and
    the entries returned are those of the rows without the line. *)
Theorem timestamp_fallback (line : string) :
  (2 <= List.length (Str.split "," line))%nat ->
  let timestamp_str := nth 0 (Str.split "," line) EmptyString in
  (forall t, Strptime.strptime timestamp_str Strptime.slash_format = Ok t ->
             parse_timestamp timestamp_str = Ok t)
  /\ (forall e, Strptime.strptime timestamp_str Strptime.slash_format = Raise e ->
                parse_timestamp timestamp_str
                = Strptime.strptime timestamp_str Strptime.dash_format)
  /\ (forall e1 e2,
        Strptime.strptime timestamp_str Strptime.slash_format = Raise e1 ->
        Strptime.strptime timestamp_str Strptime.dash_format = Raise e2 ->
        (forall st : state F, loop_body st line = Ok st)
        /\ (forall before after : list string,
              aggregate (F:=F) (before ++ line :: after)
              = aggregate (before ++ after))).
Proof.
intros L timestamp_str. split; [|split].
- intros t E. unfold parse_timestamp. now rewrite E.
- intros e E. unfold parse_timestamp. rewrite E.
  apply strptime_raises in E. now subst e.
- intros e1 e2 E1 E2.
  assert (reading_of (F:=F) line = None) as R.
  { unfold reading_of. apply Nat.leb_le in L. rewrite L.
    fold timestamp_str. unfold parse_timestamp. rewrite E1.
    apply strptime_raises in E1. subst e1. now rewrite E2. }
  split.
  + intros st. now rewrite loop_body_step, R.
  + intros before after. rewrite !aggregate_groups, !readings_of_app.
    simpl. now rewrite R.
Qed.

(** C6 (power-field recovery), as amended.  Parsing a power field never
    raises.  It gives 0 when the field, with every ['.'] and ['-'] deleted,
    is not a non-empty string of digits, and when [float] rejects the field;
    otherwise it gives the value of [float], a sign included.  A line with a
    valid timestamp is a reading with that power, which the loop body folds
    into the state; the loop body never raises, and neither does the
    loop. *)
Theorem power_recovery :
  (forall power_str : string,
      parse_power (F:=F) power_str = Ok (power_of power_str)
      /\ (screen power_str = false -> power_of power_str = num_of_int 0)
      /\ (forall e, py_float (F:=F) power_str = Raise e ->
                    power_of power_str = num_of_int 0)
      /\ (forall p, screen power_str = true -> py_float power_str = Ok p ->
                    power_of power_str = p))
  /\ (forall (st : state F) (line : string) (t : datetime),
        (2 <= List.length (Str.split "," line))%nat ->
        parse_timestamp (nth 0 (Str.split "," line) EmptyString) = Ok t ->
        loop_body st line
        = Ok (fold_reading st
                (t, power_of (nth 1 (Str.split "," line) EmptyString))))
  /\ (forall (st : state F) (line : string),
        exists st', loop_body st line = Ok st')
  /\ (forall (st : state F) (data_rows : list string),
        exists st', for_each st data_rows = Ok st').
Proof.
split; [|split; [|split]].
- intros s. split; [apply parse_power_ok|]. unfold power_of.
  split; [|split].
  + now intros ->.
  + intros e ->. now destruct (screen s).
  + now intros p -> ->.
- intros st line t L T. rewrite loop_body_step. unfold reading_of.
  apply Nat.leb_le in L. now rewrite L, T.
- intros st line. rewrite loop_body_step. eauto.
- intros st rows. rewrite for_each_fold. eauto.
Qed.

(** C8 (out-of-order input).  A reading whose window differs from that of
    the open chunk, earlier or later, closes the chunk and opens one
    at its own window.  Hence three readings of which the outer two share
    a window and the middle one does not give three entries, the first and
    the last with the same ['timestamp']: the readings of one window are
    not merged when they do not arrive together. *)
Theorem out_of_order_flush :
  (forall (st : state F) (line : string) (t cur : datetime) (p : F),
      reading_of line = Some (t, p) ->
      current_timestamp st = Some cur ->
      window t <> cur ->
      loop_body st line
      = Ok (mk_state
              (aggregated_data st ++
                 match current_chunk st with
                 | [] => []
                 | _ :: _ => [bucket_of (Some cur) (current_chunk st)]
                 end)
              [p] (Some (window t)) (Some t)))
  /\ (forall (data_rows : list string) (t1 t2 t3 : datetime) (p1 p2 p3 : F),
        readings_of data_rows = [(t1, p1); (t2, p2); (t3, p3)] ->
        window t3 = window t1 ->
        window t2 <> window t1 ->
        aggregate data_rows
        = Ok [ bucket_of (Some (window t1)) [p1];
               bucket_of (Some (window t2)) [p2];
               bucket_of (Some (window t1)) [p3] ])
  /\ (exists agg : list (bucket F),
        aggregate out_of_order_rows = Ok agg
        /\ map timestamp agg
           = [ Some (mk_datetime 2024 1 1 10 15 0 0);
               Some (mk_datetime 2024 1 1 10 0 0 0);
               Some (mk_datetime 2024 1 1 10 15 0 0) ]
        /\ map readings agg = [1; 1; 1]%nat
        /\ DT.lt (mk_datetime 2024 1 1 10 0 0 0) (mk_datetime 2024 1 1 10 15 0 0)).
Proof.
split; [|split].
- intros st line t cur p R C W. rewrite loop_body_step, R.
  unfold fold_reading. rewrite C.
  apply DT_eqb_neq in W. now rewrite W.
- intros rows t1 t2 t3 p1 p2 p3 R E N.
  rewrite aggregate_groups, R. unfold groups. simpl.
  assert (DT.eqb (window t2) (window t1) = false) as N1
      by now apply DT_eqb_neq.
  assert (DT.eqb (window t3) (window t2) = false) as N2
      by (apply DT_eqb_neq; congruence).
  rewrite N1, N2, E. reflexivity.
- eexists. split; [apply aggregate_groups|].
  split; [vm_compute; reflexivity|]. split; vm_compute; reflexivity.
Qed.

End Lines.

(** ** Strings *)


Lemma chars_app (s1 s2 : string) :
  Str.chars (s1 ++ s2)%string = Str.chars s1 ++ Str.chars s2.
Proof.
induction s1 as [|a s1 IH]; simpl; [reflexivity | now f_equal].
Qed.




Lemma split_no_sep (sep : ascii) (s : string) :
  forallb (fun a => negb (Ascii.eqb a sep)) (Str.chars s) = true ->
  Str.split sep s = [s].
Proof.
induction s as [|a s IH]; simpl; [reflexivity|].
intros H. apply andb_true_iff in H. destruct H as [A B].
apply negb_true_iff in A. rewrite A, (IH B). reflexivity.
Qed.

Lemma split_app_sep (sep : ascii) (s rest : string) :
  forallb (fun a => negb (Ascii.eqb a sep)) (Str.chars s) = true ->
  Str.split sep (s ++ String sep rest) = s :: Str.split sep rest.
Proof.
induction s as [|a s IH]; simpl.
- intros _. now rewrite Ascii.eqb_refl.
- intros H. apply andb_true_iff in H. destruct H as [A B].
  apply negb_true_iff in A. rewrite A, (IH B). reflexivity.
Qed.

Lemma split_csv (l : string) (ls : list string) :
  forallb no_newline (l :: ls) = true ->
  Str.split Str.newline (csv (l :: ls)) = l :: ls.
Proof.
revert l. induction ls as [|l2 ls IH]; intros l H.
- simpl in H. rewrite andb_true_r in H. now apply split_no_sep.
- cbn [forallb] in H. apply andb_true_iff in H. destruct H as [A B].
  unfold csv. cbn [Str.join]. rewrite split_app_sep by assumption.
  f_equal. now apply IH.
Qed.

(** ** The header row *)

Lemma csv_truthy (l l2 : string) (ls : list string) :
  Str.truthy (csv (l :: l2 :: ls)) = true.
Proof. unfold csv. cbn [Str.join]. now destruct l. Qed.

(** The section never takes its fallback: the text has no data, or no
    data rows, or the lines after the first are aggregated. *)
Lemma raw_data_samples_lines {F : Type} {num : PyNum F} (combined_csv : string) :
  raw_data_samples (F:=F) combined_csv
  = if Str.truthy combined_csv && Str.truthy (Str.strip combined_csv) then
      match Str.split Str.newline (Str.strip combined_csv) with
      | _ :: (_ :: _) as data_rows =>
          Aggregated (map bucket_of_group (groups (readings_of data_rows)))
      | _ => NoDataRows
      end
    else NoCsvData.
Proof.
unfold raw_data_samples.
destruct (Str.truthy combined_csv && Str.truthy (Str.strip combined_csv));
  [|reflexivity].
destruct (Str.split Str.newline (Str.strip combined_csv)) as [|l [|l2 ls]];
  try reflexivity.
cbn [List.length Nat.ltb Nat.leb tl]. now rewrite aggregate_groups.
Qed.

(** C9 (header row).  For a text that [strip] leaves as it is and that has
    two lines at least, the entries are those of the lines after the first:
    the first line takes no part in the aggregation, whatever it holds, a
    well-formed reading included. *)
Theorem header_excluded {F : Type} {num : PyNum F}
  (first_line : string) (rest : list string) :
  forallb no_newline (first_line :: rest) = true ->
  rest <> [] ->
  Str.strip (csv (first_line :: rest)) = csv (first_line :: rest) ->
  exists agg : list (bucket F),
    aggregate rest = Ok agg
    /\ raw_data_samples (csv (first_line :: rest)) = Aggregated agg.
Proof.
intros N R S.
exists (map bucket_of_group (groups (readings_of rest))).
split; [apply aggregate_groups|].
unfold raw_data_samples. rewrite S, split_csv by assumption.
destruct rest as [|l2 ls]; [contradiction|].
rewrite csv_truthy. cbn [andb List.length Nat.ltb Nat.leb tl].
now rewrite aggregate_groups.
Qed.

Lemma header_excluded_witness :
  valid_line reading_as_header = true
  /\ forallb no_newline (reading_as_header :: one_row) = true
  /\ one_row <> []
  /\ Str.strip (csv (reading_as_header :: one_row))
     = csv (reading_as_header :: one_row)
  /\ exists agg : list (bucket float),
       aggregate one_row = Ok agg
       /\ raw_data_samples (csv (reading_as_header :: one_row)) = Aggregated agg.
Proof.
split; [vm_compute; reflexivity|].
split; [vm_compute; reflexivity|].
split; [discriminate|].
split; [vm_compute; reflexivity|].
apply (header_excluded (F:=float) reading_as_header one_row).
- vm_compute; reflexivity.
- discriminate.
- vm_compute; reflexivity.
Defined.

(** ** The accepted power grammar *)


(** C6 (power-field recovery) fails as stated: ["-5"] is not a non-negative
    decimal numeral, and the reading it gives has power -5, not 0. *)
Lemma power_recovery_counterexample :
  exists agg : list (bucket float),
    aggregate [ "2024/01/01 10:00:00,-5" ] = Ok agg
    /\ map avg_power agg = [(-5)%float]
    /\ parse_power (F:=float) "-5" = Ok (-5)%float
    /\ PrimFloat.eqb (-5) 0 = false.
Proof.
eexists. split; [vm_compute; reflexivity|]. repeat split; vm_compute; reflexivity.
Qed.

(** ** Productive chunks *)

Section Productive.

Context {F : Type} {num : PyNum F}.

Lemma productive_chunks_app (a b : list (bucket F)) :
  productive_chunks (a ++ b) = (productive_chunks a + productive_chunks b)%nat.
Proof.
unfold productive_chunks. now rewrite filter_app, length_app.
Qed.

(** The hours printed are the number of entries whose ['avg_power'] is
    strictly above 50, times 0.25.  An entry that is not above 50 adds
    nothing, an entry above 50 adds one to the count; in binary64 an entry at
    exactly 50 is not above 50, and the factor is exactly 0.25. *)
Lemma productive_hours_count (agg : list (bucket F)) :
  productive_hours agg
  = num_mul
      (num_of_int
         (Z.of_nat
            (List.length
               (filter (fun c => num_lt (num_of_int 50) (avg_power c)) agg))))
      (num_of_decimal false 25 2)
  /\ (forall (before after : list (bucket F)) (c : bucket F),
        num_lt (num_of_int 50) (avg_power c) = false ->
        productive_chunks (before ++ c :: after)
        = productive_chunks (before ++ after)
        /\ productive_hours (before ++ c :: after)
           = productive_hours (before ++ after))
  /\ (forall (before after : list (bucket F)) (c : bucket F),
        num_lt (num_of_int 50) (avg_power c) = true ->
        productive_chunks (before ++ c :: after)
        = S (productive_chunks (before ++ after)))
  /\ (num_lt (F:=float) (num_of_int 50) 50%float = false
      /\ num_lt (F:=float) (num_of_int 50) 50.5%float = true
      /\ num_of_decimal (F:=float) false 25 2 = 0.25%float).
Proof.
split; [reflexivity|].
assert (forall (before after : list (bucket F)) (c : bucket F),
           productive_chunks (before ++ c :: after)
           = ((if productive c then 1 else 0)
              + productive_chunks (before ++ after))%nat) as K.
{ intros before after c. rewrite !productive_chunks_app.
  unfold productive_chunks at 2 4. cbn [filter].
  destruct (productive c); cbn [List.length]; lia. }
split; [|split].
- intros before after c H. unfold productive_hours. rewrite K.
  unfold productive. now rewrite H.
- intros before after c H. rewrite K. unfold productive. now rewrite H.
- repeat split; vm_compute; reflexivity.
Qed.

End Productive.

(** ** Instances of the hypotheses *)

Lemma nondecreasing_Sorted (ts : list datetime) :
  nondecreasing ts = true -> Sorted DT.le ts.
Proof.
induction ts as [|t1 rest IH]; [constructor|].
destruct rest as [|t2 rest']; [repeat constructor|].
cbn [nondecreasing]. intros H.
destruct (DT.compare t1 t2) eqn:C; try discriminate;
  (constructor; [now apply IH | constructor; unfold DT.le; congruence]).
Qed.

Example five_minute_buckets :
  aggregate (F:=float) five_minute_rows
  = Ok [ mk_bucket (Some (mk_datetime 2024 1 1 10 0 0 0))
           200%float 300%float 100%float 3;
         mk_bucket (Some (mk_datetime 2024 1 1 10 15 0 0))
           450%float 500%float 400%float 2 ].
Proof. vm_compute. reflexivity. Qed.

Lemma bucket_ordering_witness :
  Sorted DT.le (map fst (readings_of (F:=float) five_minute_rows))
  /\ exists (agg : list (bucket float)) (starts : list datetime),
       aggregate five_minute_rows = Ok agg
       /\ map timestamp agg = map Some starts
       /\ StronglySorted DT.lt starts.
Proof.
assert (Sorted DT.le (map fst (readings_of (F:=float) five_minute_rows))) as S.
{ apply nondecreasing_Sorted. vm_compute. reflexivity. }
split; [exact S|].
exact (bucket_ordering (F:=float) five_minute_rows S).
Defined.

Lemma timestamp_fallback_witness :
  (2 <= List.length (Str.split "," dotted_line))%nat
  /\ (forall st : state float, loop_body st dotted_line = Ok st)
  /\ (forall before after : list string,
        aggregate (F:=float) (before ++ dotted_line :: after)
        = aggregate (before ++ after)).
Proof.
assert (2 <= List.length (Str.split "," dotted_line))%nat as L.
{ vm_compute. constructor. }
split; [exact L|].
destruct (timestamp_fallback (F:=float) dotted_line L) as [_ [_ K]].
apply (K ValueError ValueError); vm_compute; reflexivity.
Defined.

(** * Further properties of the report *)

(** ** The order of binary64 *)

Lemma SFltb_irrefl (a : spec_float) : SFltb a a = false.
Proof.
unfold SFltb, SFcompare.
destruct a as [[|]|[|]| |[|] m e]; try reflexivity;
  rewrite Z.compare_refl, Pos.compare_cont_refl; reflexivity.
Qed.

Lemma SFltb_trans (a b c : spec_float) :
  SFltb a b = true -> SFltb b c = true -> SFltb a c = true.
Proof.
unfold SFltb, SFcompare.
destruct a as [[|]|[|]| |[|] m1 e1], b as [[|]|[|]| |[|] m2 e2],
  c as [[|]|[|]| |[|] m3 e3];
  try discriminate; try reflexivity;
  change (Pos.compare_cont Eq) with Pos.compare;
  destruct (Z.compare_spec e1 e2); try discriminate;
  destruct (Z.compare_spec e2 e3); try discriminate;
  destruct (Z.compare_spec e1 e3); try lia; try reflexivity;
  destruct (Pos.compare_spec m1 m2); try discriminate;
  destruct (Pos.compare_spec m2 m3); try discriminate;
  destruct (Pos.compare_spec m1 m3); try lia; reflexivity.
Qed.

Lemma float_ltb_irrefl (x : float) : PrimFloat.ltb x x = false.
Proof. rewrite ltb_spec. apply SFltb_irrefl. Qed.

Lemma float_ltb_trans (x y z : float) :
  PrimFloat.ltb x y = true -> PrimFloat.ltb y z = true ->
  PrimFloat.ltb x z = true.
Proof. rewrite !ltb_spec. apply SFltb_trans. Qed.

(** ** More on the aggregation *)

Section Entries.

Context {F : Type} {num : PyNum F}.

Lemma readings_of_valid (data_rows : list string) :
  Forall (fun r : reading F => DT.valid (fst r) = true) (readings_of data_rows).
Proof.
induction data_rows as [|line rest IH]; simpl; [constructor|].
unfold reading_of.
destruct (2 <=? List.length (Str.split "," line))%nat; [|assumption].
destruct (parse_timestamp _) as [t|e] eqn:E; [|assumption].
constructor; [|assumption]. simpl. eapply parse_timestamp_valid; eassumption.
Qed.

Lemma window_minute (t : datetime) :
  DT.valid t = true ->
  In (minute (window t)) [0; 15; 30; 45]
  /\ second (window t) = 0 /\ microsecond (window t) = 0.
Proof.
unfold DT.valid, DT.in_range. intros V.
rewrite !andb_true_iff in V.
destruct V as [[[_ [M1 M2]] _] _]. apply Z.leb_le in M1, M2.
split; [|split; reflexivity]. simpl.
assert (0 <= minute t / 15 <= 3) as Q.
{ split; [apply Z.div_pos; lia|].
  apply Z.lt_succ_r. apply Z.div_lt_upper_bound; lia. }
assert (minute t / 15 = 0 \/ minute t / 15 = 1
        \/ minute t / 15 = 2 \/ minute t / 15 = 3) as C by lia.
destruct C as [C|[C|[C|C]]]; rewrite C; simpl; tauto.
Qed.

Lemma in_groups_in_readings (rs : list (reading F)) w g r :
  In (w, g) (groups rs) -> In r g -> In r rs.
Proof.
intros I J. rewrite <- (groups_concat rs). apply in_concat.
exists g. split; [|assumption].
apply in_map_iff. exists (w, g). split; [reflexivity | assumption].
Qed.

(** X1.  Every entry the aggregation returns counts one reading at least,
    and its ['timestamp'] is a [datetime] that the constructor accepts,
    on a quarter of an hour: minute 0, 15, 30 or 45, second and microsecond
    0. *)
Theorem entries_well_formed (data_rows : list string) :
  exists agg : list (bucket F),
    aggregate data_rows = Ok agg
    /\ Forall (fun b =>
                 (1 <= readings b)%nat
                 /\ exists w, timestamp b = Some w
                              /\ DT.valid w = true
                              /\ In (minute w) [0; 15; 30; 45]
                              /\ second w = 0 /\ microsecond w = 0)
         agg.
Proof.
exists (map bucket_of_group (groups (readings_of data_rows))).
split; [apply aggregate_groups|].
apply Forall_map. apply Forall_forall. intros [w g] I.
pose proof (groups_ok (readings_of data_rows)) as K.
rewrite Forall_forall in K. destruct (K _ I) as [Hne Hw]. simpl in *.
destruct g as [|[t p] g]; [contradiction|].
split; [simpl; lia|]. exists w. split; [reflexivity|].
inversion Hw as [|? ? E _]; subst. simpl in *.
assert (DT.valid t = true) as V.
{ pose proof (readings_of_valid data_rows) as R. rewrite Forall_forall in R.
  apply (R (t, p)). eapply in_groups_in_readings; [exact I | now left]. }
split; [now apply window_valid | now apply window_minute].
Qed.

Lemma group_from_adjacent rs : forall w (g : list (reading F)),
  Sorted (fun a b : datetime => a <> b) (map fst (group_from w g rs)).
Proof.
induction rs as [|[t p] rest IH]; intros w g; simpl.
- repeat constructor.
- destruct (DT.eqb (window t) w) eqn:E; [apply IH|].
  simpl. constructor; [apply IH|].
  destruct (group_from_head rest (window t) [(t, p)]) as (g' & tl & ->).
  simpl. constructor. apply DT_eqb_neq in E. congruence.
Qed.

(** X2.  Whatever the order of the readings, two entries that follow each
    other never have the same ['timestamp']. *)
Theorem adjacent_entries_differ (data_rows : list string) :
  exists agg : list (bucket F),
    aggregate data_rows = Ok agg
    /\ Sorted (fun a b : option datetime => a <> b) (map timestamp agg).
Proof.
exists (map bucket_of_group (groups (readings_of data_rows))).
split; [apply aggregate_groups|].
rewrite map_map.
assert (Sorted (fun a b : datetime => a <> b)
          (map fst (groups (readings_of (F:=F) data_rows)))) as S.
{ destruct (readings_of data_rows) as [|[t p] rest]; [constructor|].
  apply group_from_adjacent. }
revert S. generalize (groups (readings_of (F:=F) data_rows)).
induction l as [|[w g] l IH]; simpl; intros S; [constructor|].
inversion S as [|? ? S' H]; subst. constructor; [now apply IH|].
destruct l as [|[w' g'] l]; simpl in *; constructor.
inversion H; subst. congruence.
Qed.

Lemma group_from_length rs : forall w (g : list (reading F)),
  (List.length (group_from w g rs) <= S (List.length rs))%nat.
Proof.
induction rs as [|[t p] rest IH]; intros w g; simpl; [lia|].
destruct (DT.eqb (window t) w); simpl.
- specialize (IH w (g ++ [(t, p)])). lia.
- specialize (IH (window t) [(t, p)]). lia.
Qed.

(** X3.  There are no more entries than valid readings, and there is no
    entry exactly when no line is a valid reading. *)
Theorem entries_bounded (data_rows : list string) :
  exists agg : list (bucket F),
    aggregate data_rows = Ok agg
    /\ (List.length agg <= List.length (filter valid_line data_rows))%nat
    /\ (agg = [] <-> filter valid_line data_rows = []).
Proof.
exists (map bucket_of_group (groups (readings_of data_rows))).
split; [apply aggregate_groups|].
rewrite length_map, <- (readings_of_length (F:=F)).
destruct (readings_of (F:=F) data_rows) as [|[t p] rest] eqn:R; simpl.
- split; [lia|]. split; [|reflexivity]. intros _.
  apply length_zero_iff_nil. now rewrite <- (readings_of_length (F:=F)), R.
- split; [apply group_from_length|].
  destruct (group_from_head rest (window t) [(t, p)]) as (g' & tl & ->).
  split; [discriminate|]. intros E.
  pose proof (readings_of_length (F:=F) data_rows) as L.
  rewrite R, E in L. discriminate.
Qed.

(** X4.  The lines that are not valid readings take no part: the entries
    are those of the valid lines alone. *)
Theorem invalid_lines_ignored (data_rows : list string) :
  aggregate (F:=F) data_rows = aggregate (filter valid_line data_rows).
Proof.
rewrite !aggregate_groups. do 3 f_equal.
induction data_rows as [|line rest IH]; simpl; [reflexivity|].
assert (valid_line line = match reading_of (F:=F) line with
                          | Some _ => true
                          | None => false
                          end) as V.
{ unfold valid_line, reading_of.
  destruct (2 <=? List.length (Str.split "," line))%nat; [|reflexivity].
  now destruct (parse_timestamp _). }
rewrite V. destruct (reading_of line) eqn:E; simpl.
- now rewrite E, IH.
- assumption.
Qed.

Lemma group_from_split init : forall w (g : list (reading F)) t1 p1 t2 p2 rest,
  window t1 <> window t2 ->
  group_from w g (init ++ (t1, p1) :: (t2, p2) :: rest)
  = group_from w g (init ++ [(t1, p1)])
    ++ group_from (window t2) [(t2, p2)] rest.
Proof.
induction init as [|[t p] init IH]; intros w g t1 p1 t2 p2 rest N.
- assert (DT.eqb (window t2) (window t1) = false) as E
      by (apply DT_eqb_neq; congruence).
  simpl. destruct (DT.eqb (window t1) w) eqn:E1; simpl.
  + apply DT_eqb_eq in E1. subst w. now rewrite E.
  + now rewrite E.
- simpl. destruct (DT.eqb (window t) w); simpl; now rewrite IH.
Qed.

(** X5.  Aggregation composes over a boundary between windows: when the
    last valid reading of a first batch of rows and the first valid reading
    of a second batch fall in different windows, the entries of the two
    batches together are those of the first followed by those of the
    second. *)
Theorem aggregate_app (rows1 rows2 : list string)
  (before : list (reading F)) (t1 t2 : datetime) (p1 p2 : F)
  (after : list (reading F)) :
  readings_of rows1 = before ++ [(t1, p1)] ->
  readings_of rows2 = (t2, p2) :: after ->
  window t1 <> window t2 ->
  exists agg1 agg2 : list (bucket F),
    aggregate rows1 = Ok agg1
    /\ aggregate rows2 = Ok agg2
    /\ aggregate (rows1 ++ rows2) = Ok (agg1 ++ agg2).
Proof.
intros R1 R2 N.
exists (map bucket_of_group (groups (readings_of rows1))).
exists (map bucket_of_group (groups (readings_of rows2))).
split; [apply aggregate_groups|]. split; [apply aggregate_groups|].
rewrite aggregate_groups, readings_of_app, R1, R2, <- map_app. do 2 f_equal.
rewrite <- app_assoc. simpl.
destruct before as [|[t p] before]; simpl.
- assert (DT.eqb (window t2) (window t1) = false) as E
      by (apply DT_eqb_neq; congruence).
  now rewrite E.
- now apply group_from_split.
Qed.

Lemma fold_max_in (r : list F) : forall x,
  In (fold_left (fun m y => if num_lt m y then y else m) r x) (x :: r).
Proof.
induction r as [|y r IH]; intros x; simpl; [now left|].
destruct (IH (if num_lt x y then y else x)) as [E|I].
- rewrite <- E. destruct (num_lt x y); [right; now left | now left].
- right. now right.
Qed.

Lemma fold_min_in (r : list F) : forall x,
  In (fold_left (fun m y => if num_lt y m then y else m) r x) (x :: r).
Proof.
induction r as [|y r IH]; intros x; simpl; [now left|].
destruct (IH (if num_lt y x then y else x)) as [E|I].
- rewrite <- E. destruct (num_lt y x); [right; now left | now left].
- right. now right.
Qed.

(** X6.  Whatever the arithmetic, the ['max_power'] and the ['min_power']
    of an entry are powers of readings of its chunk: no value is made up. *)
Theorem extremes_are_readings (data_rows : list string) :
  exists runs : list (datetime * list (reading F)),
    aggregate data_rows = Ok (map bucket_of_group runs)
    /\ List.concat (map snd runs) = readings_of data_rows
    /\ Forall (fun run =>
                 In (max_power (bucket_of_group run)) (map snd (snd run))
                 /\ In (min_power (bucket_of_group run)) (map snd (snd run)))
         runs.
Proof.
exists (groups (readings_of data_rows)).
split; [apply aggregate_groups|]. split; [apply groups_concat|].
eapply Forall_impl; [|apply groups_ok].
intros [w g] [Hne _]. simpl in *.
destruct g as [|[t p] g]; [contradiction|].
unfold bucket_of_group, bucket_of. simpl.
split; [apply fold_max_in | apply fold_min_in].
Qed.

End Entries.

Lemma aggregate_app_witness :
  readings_of (F:=float) two_day_rows
  = [ (mk_datetime 2024 1 1 12 0 0 0, 100%float);
      (mk_datetime 2024 1 2 13 0 0 0, 100%float) ]
  /\ exists agg1 agg2 : list (bucket float),
       aggregate tenth_rows = Ok agg1
       /\ aggregate two_day_rows = Ok agg2
       /\ aggregate (tenth_rows ++ two_day_rows) = Ok (agg1 ++ agg2).
Proof.
split; [vm_compute; reflexivity|].
apply (aggregate_app (F:=float) tenth_rows two_day_rows
         [ (mk_datetime 2024 1 1 10 0 0 0, 0.1%float);
           (mk_datetime 2024 1 1 10 5 0 0, 0.1%float) ]
         (mk_datetime 2024 1 1 10 10 0 0) (mk_datetime 2024 1 1 12 0 0 0)
         0.1%float 100%float
         [ (mk_datetime 2024 1 2 13 0 0 0, 100%float) ]).
- vm_compute. reflexivity.
- vm_compute. reflexivity.
- intros E. vm_compute in E. discriminate E.
Defined.

(** ** Extremes under a strict order *)

Section Extremes.

Variable A : Type.
Variable lt : A -> A -> bool.
Hypothesis lt_irrefl : forall x, lt x x = false.
Hypothesis lt_trans : forall x y z, lt x y = true -> lt y z = true -> lt x z = true.

Lemma fold_pick_start (r : list A) : forall x,
  fold_left (pick lt) r x = x \/ lt x (fold_left (pick lt) r x) = true.
Proof.
induction r as [|y r IH]; intros x; simpl; [now left|].
change (pick lt x y) with (if lt x y then y else x).
destruct (lt x y) eqn:E.
- right. destruct (IH y) as [-> | L]; [assumption|].
  eapply lt_trans; eassumption.
- apply IH.
Qed.

Lemma lt_asym (x y : A) : lt x y = true -> lt y x = false.
Proof.
intros L. destruct (lt y x) eqn:E; [|reflexivity].
rewrite <- (lt_irrefl x). symmetry. eapply lt_trans; eassumption.
Qed.

Lemma fold_pick_top (r : list A) : forall x,
  Forall (fun y => lt (fold_left (pick lt) r x) y = false) (x :: r).
Proof.
induction r as [|y r IH]; intros x.
- simpl. constructor; [apply lt_irrefl | constructor].
- cbn [fold_left]. specialize (IH (pick lt x y)).
  inversion IH as [|? ? Hx Hr]; subst.
  assert (lt (fold_left (pick lt) r (pick lt x y)) x = false
          /\ lt (fold_left (pick lt) r (pick lt x y)) y = false) as [Kx Ky].
  { revert Hx. change (pick lt x y) with (if lt x y then y else x).
    destruct (lt x y) eqn:E; intros Hx.
    - split; [|assumption].
      destruct (fold_pick_start r y) as [-> | L].
      + now apply lt_asym.
      + apply lt_asym. eapply lt_trans; eassumption.
    - split; [assumption|].
      destruct (fold_pick_start r x) as [-> | L]; [assumption|].
      destruct (lt (fold_left (pick lt) r x) y) eqn:G; [|reflexivity].
      rewrite <- E. symmetry. eapply lt_trans; eassumption. }
  constructor; [assumption|]. constructor; assumption.
Qed.

End Extremes.

(** X7.  In binary64 no reading of a chunk is greater than the ['max_power']
    of its entry and none is smaller than its ['min_power'], whatever the
    readings are. *)
Theorem extremes_bound_binary64 (data_rows : list string) :
  exists runs : list (datetime * list (reading float)),
    aggregate data_rows = Ok (map bucket_of_group runs)
    /\ List.concat (map snd runs) = readings_of data_rows
    /\ Forall (fun run =>
                 Forall (fun r : reading float =>
                           PrimFloat.ltb (max_power (bucket_of_group run)) (snd r)
                           = false
                           /\ PrimFloat.ltb (snd r) (min_power (bucket_of_group run))
                              = false)
                   (snd run))
         runs.
Proof.
exists (groups (readings_of data_rows)).
split; [apply aggregate_groups|]. split; [apply groups_concat|].
eapply Forall_impl; [|apply groups_ok].
intros [w g] [Hne _]. simpl in *.
destruct g as [|[t p] g]; [contradiction|].
unfold bucket_of_group, bucket_of, max_of, min_of. cbn [max_power min_power snd map].
pose proof (fold_pick_top float PrimFloat.ltb float_ltb_irrefl float_ltb_trans
              (map snd g) p) as Top.
pose proof (fold_pick_top float (fun a b => PrimFloat.ltb b a)
              float_ltb_irrefl
              (fun x y z H1 H2 => float_ltb_trans z y x H2 H1)
              (map snd g) p) as Bot.
cbv beta in Bot.
change (p :: map snd g) with (map snd ((t, p) :: g)) in Top, Bot.
rewrite Forall_map in Top, Bot.
rewrite Forall_forall in Top, Bot |- *.
intros r I. split; [exact (Top r I) | exact (Bot r I)].
Qed.

(** ** The two timestamp formats *)

Lemma seq_inv {A B : Type} (p : Strptime.matcher A) (k : A -> Strptime.matcher B)
  (s : list ascii) (b : B) (r : list ascii) :
  In (b, r) (Strptime.seq p k s) ->
  exists a r', In (a, r') (p s) /\ In (b, r) (k a r').
Proof.
unfold Strptime.seq. intros I. apply in_flat_map in I.
destruct I as [[a r'] [I J]]. eauto.
Qed.

Lemma one_inv (p : ascii -> bool) (s : list ascii) (v : Z) (r : list ascii) :
  In (v, r) (Strptime.one p s) -> exists c, s = c :: r.
Proof.
unfold Strptime.one. destruct s as [|c s]; [intros []|].
destruct (p c); [|intros []]. intros [E|[]]. inversion E. eauto.
Qed.

Lemma lit_inv (c : ascii) (s : list ascii) (u : unit) (r : list ascii) :
  In (u, r) (Strptime.lit c s) -> s = c :: r.
Proof.
unfold Strptime.lit. destruct s as [|a s]; [intros []|].
destruct (Ascii.eqb_spec a c); [|intros []]. intros [E|[]].
inversion E. now subst.
Qed.

Lemma pattern_separator (f : Strptime.format) (s : list ascii) x r :
  In (x, r) (Strptime.pattern f s) ->
  exists a b c d rest, s = a :: b :: c :: d :: Strptime.date_sep f :: rest.
Proof.
unfold Strptime.pattern, Strptime.re_Y. intros I.
apply seq_inv in I. destruct I as (y & r0 & IY & I).
apply seq_inv in IY. destruct IY as (a & ra & Ia & IY).
apply seq_inv in IY. destruct IY as (b & rb & Ib & IY).
apply seq_inv in IY. destruct IY as (c & rc & Ic & IY).
apply seq_inv in IY. destruct IY as (d & rd & Id & IY).
destruct IY as [E|[]]. inversion E; subst.
apply seq_inv in I. destruct I as (u & r1 & IL & _).
apply lit_inv in IL.
apply one_inv in Ia, Ib, Ic, Id.
destruct Ia as [ca ->], Ib as [cb ->], Ic as [cc ->], Id as [cd ->].
subst. eauto 8.
Qed.

Lemma strptime_separator (text : string) (f : Strptime.format) (t : datetime) :
  Strptime.strptime text f = Ok t ->
  nth 4 (Str.chars text) "000"%char = Strptime.date_sep f.
Proof.
unfold Strptime.strptime.
destruct (Strptime.pattern f (Str.chars text)) as [|[x r] l] eqn:P;
  [discriminate|]. intros _.
destruct (pattern_separator f (Str.chars text) x r) as (a & b & c & d & rest & ->).
- rewrite P. now left.
- reflexivity.
Qed.

(** X8.  No text is a timestamp in both formats, so the order in which the
    two are tried never decides a result: what the slash format accepts the
    dash format rejects, and the other way round. *)
Theorem formats_disjoint (text : string) :
  (forall t, Strptime.strptime text Strptime.slash_format = Ok t ->
             Strptime.strptime text Strptime.dash_format = Raise ValueError)
  /\ (forall t, Strptime.strptime text Strptime.dash_format = Ok t ->
                Strptime.strptime text Strptime.slash_format = Raise ValueError
                /\ parse_timestamp text = Ok t).
Proof.
assert (forall f g t, Strptime.date_sep f <> Strptime.date_sep g ->
           Strptime.strptime text f = Ok t ->
           Strptime.strptime text g = Raise ValueError) as K.
{ intros f g t N E.
  destruct (Strptime.strptime text g) as [t'|e] eqn:G.
  - apply strptime_separator in E, G. congruence.
  - apply strptime_raises in G. now subst. }
split.
- intros t E.
  apply (K Strptime.slash_format Strptime.dash_format t);
    [discriminate | assumption].
- intros t E.
  assert (Strptime.strptime text Strptime.slash_format = Raise ValueError) as R
      by (apply (K Strptime.dash_format Strptime.slash_format t);
          [discriminate | assumption]).
  split; [assumption|]. unfold parse_timestamp. now rewrite R.
Qed.

(** ** The text that is aggregated *)

Lemma truthy_lstrip (s : string) : Str.truthy (Str.lstrip s) = negb (blank s).
Proof.
induction s as [|a s IH]; [reflexivity|].
unfold blank in *. simpl. destruct (Str.isspace a); [exact IH | reflexivity].
Qed.

Lemma truthy_rstrip (s : string) : Str.truthy (Str.rstrip s) = negb (blank s).
Proof.
induction s as [|a s IH]; [reflexivity|].
unfold blank in *. simpl.
destruct (Str.rstrip s); simpl in *.
- apply (f_equal negb) in IH. rewrite negb_involutive in IH. simpl in IH.
  rewrite <- IH, andb_true_r. now destruct (Str.isspace a).
- apply (f_equal negb) in IH. rewrite negb_involutive in IH. simpl in IH.
  rewrite <- IH, andb_false_r. reflexivity.
Qed.

Lemma blank_lstrip (s : string) : blank (Str.lstrip s) = blank s.
Proof.
induction s as [|a s IH]; [reflexivity|].
unfold blank in *. simpl. destruct (Str.isspace a) eqn:E; [exact IH|].
simpl. now rewrite E.
Qed.

Lemma truthy_strip (s : string) :
  Str.truthy s && Str.truthy (Str.strip s) = negb (blank s).
Proof.
unfold Str.strip. rewrite truthy_rstrip, blank_lstrip.
destruct s; reflexivity.
Qed.

Lemma split_length (sep : ascii) (s : string) :
  List.length (Str.split sep s) = S (count_char sep s).
Proof.
unfold count_char.
induction s as [|a s IH]; [reflexivity|]. simpl.
rewrite (Ascii.eqb_sym sep a).
destruct (Ascii.eqb a sep); simpl; [now rewrite IH|].
destruct (Str.split sep s); simpl in *; [discriminate | assumption].
Qed.

(** X9.  The section reports that there is no CSV data exactly when the
    text is empty or all white space, that there are no data rows exactly
    when the stripped text is a single line, and aggregates otherwise; the
    aggregation never sends it to the raw listing of the [except] branch. *)
Theorem outcome_cases {F : Type} {num : PyNum F} (combined_csv : string) :
  (raw_data_samples (F:=F) combined_csv = NoCsvData
   <-> blank combined_csv = true)
  /\ (raw_data_samples (F:=F) combined_csv = NoDataRows
      <-> blank combined_csv = false
          /\ count_char Str.newline (Str.strip combined_csv) = 0%nat)
  /\ ((exists agg, raw_data_samples (F:=F) combined_csv = Aggregated agg)
      <-> blank combined_csv = false
          /\ (0 < count_char Str.newline (Str.strip combined_csv))%nat)
  /\ (forall e, raw_data_samples (F:=F) combined_csv <> Fallback e).
Proof.
rewrite raw_data_samples_lines, truthy_strip.
pose proof (split_length Str.newline (Str.strip combined_csv)) as L.
destruct (blank combined_csv); simpl.
- split; [|split; [|split]].
  + split; reflexivity.
  + split; [discriminate | intros [E _]; discriminate].
  + split; [intros [agg E]; discriminate | intros [E _]; discriminate].
  + discriminate.
- destruct (Str.split Str.newline (Str.strip combined_csv)) as [|l [|l2 ls]];
    simpl in L; [discriminate L | |]; injection L as L;
    (split; [|split; [|split]]).
  + split; discriminate.
  + split; [intros _; split; [reflexivity | lia] | reflexivity].
  + split; [intros [agg E]; discriminate | intros [_ E]; lia].
  + discriminate.
  + split; discriminate.
  + split; [discriminate | intros [_ E]; lia].
  + split; [intros _; split; [reflexivity | lia] | intros _; eauto].
  + discriminate.
Qed.

Lemma blank_app (s1 s2 : string) :
  blank (s1 ++ s2) = blank s1 && blank s2.
Proof. unfold blank. now rewrite chars_app, forallb_app. Qed.

Lemma lstrip_blank_app (pre s : string) :
  blank pre = true -> Str.lstrip (pre ++ s) = Str.lstrip s.
Proof.
induction pre as [|a pre IH]; [reflexivity|].
unfold blank in *. simpl. intros H. apply andb_true_iff in H.
destruct H as [A B]. rewrite A. now apply IH.
Qed.

Lemma rstrip_blank (s : string) : blank s = true -> Str.rstrip s = EmptyString.
Proof.
intros B. pose proof (truthy_rstrip s) as T. rewrite B in T.
now destruct (Str.rstrip s).
Qed.

Lemma lstrip_blank (s : string) : blank s = true -> Str.lstrip s = EmptyString.
Proof.
intros B. pose proof (truthy_lstrip s) as T. rewrite B in T.
now destruct (Str.lstrip s).
Qed.

Lemma rstrip_app_blank (s post : string) :
  blank post = true -> Str.rstrip (s ++ post) = Str.rstrip s.
Proof.
intros B. induction s as [|a s IH]; simpl.
- now apply rstrip_blank.
- now rewrite IH.
Qed.

Lemma lstrip_app (s post : string) :
  blank s = false -> Str.lstrip (s ++ post) = (Str.lstrip s ++ post)%string.
Proof.
induction s as [|a s IH]; [discriminate|].
unfold blank in *. simpl. destruct (Str.isspace a); [exact IH | reflexivity].
Qed.

Lemma strip_padding (pre s post : string) :
  blank pre = true -> blank post = true ->
  Str.strip (pre ++ s ++ post) = Str.strip s.
Proof.
intros P Q. unfold Str.strip. rewrite lstrip_blank_app by assumption.
destruct (blank s) eqn:B.
- rewrite (lstrip_blank s B).
  rewrite lstrip_blank by (rewrite blank_app, B, Q; reflexivity).
  reflexivity.
- rewrite lstrip_app by assumption. now apply rstrip_app_blank.
Qed.

(** X10.  White space around the text, blank lines included, changes
    nothing: the same line is taken as the header and the same rows are
    aggregated. *)
Theorem padding_ignored {F : Type} {num : PyNum F} (pre combined_csv post : string) :
  blank pre = true -> blank post = true ->
  raw_data_samples (F:=F) (pre ++ combined_csv ++ post)
  = raw_data_samples combined_csv.
Proof.
intros P Q. rewrite !raw_data_samples_lines, !truthy_strip.
rewrite strip_padding by assumption.
now rewrite !blank_app, P, Q, andb_true_r.
Qed.

Lemma padding_ignored_witness :
  blank blank_lines = true
  /\ raw_data_samples (F:=float)
       (blank_lines ++ csv (reading_as_header :: one_row) ++ blank_lines)
     = raw_data_samples (csv (reading_as_header :: one_row)).
Proof.
assert (blank blank_lines = true) as B by (vm_compute; reflexivity).
split; [exact B|].
exact (padding_ignored (F:=float) blank_lines
         (csv (reading_as_header :: one_row)) blank_lines B B).
Defined.

(** ** The 24-hour summary *)

Section SummaryFacts.

Context {F : Type} {num : PyNum F}.

Lemma fold_key (A : Type) (key : A -> F) (r : list A) : forall x,
  key (fold_left (fun m y => if num_lt (key m) (key y) then y else m) r x)
  = fold_left (fun m y => if num_lt m y then y else m) (map key r) (key x).
Proof.
induction r as [|y r IH]; intros x; simpl; [reflexivity|].
rewrite IH. now destruct (num_lt (key x) (key y)).
Qed.

Lemma fold_key_in (A : Type) (key : A -> F) (r : list A) : forall x,
  In (fold_left (fun m y => if num_lt (key m) (key y) then y else m) r x)
     (x :: r).
Proof.
induction r as [|y r IH]; intros x; simpl; [now left|].
destruct (IH (if num_lt (key x) (key y) then y else x)) as [E|I].
- rewrite <- E. destruct (num_lt (key x) (key y)); [right; now left | now left].
- right. now right.
Qed.

Lemma filter_split_length (A : Type) (p : A -> bool) (l : list A) :
  (List.length (filter p l) + List.length (filter (fun x => negb (p x)) l)
   = List.length l)%nat.
Proof.
induction l as [|x l IH]; simpl; [reflexivity|].
destruct (p x); simpl; lia.
Qed.

(** X11.  For a list of entries that is not empty the summary is computed
    without an error, whatever the entries hold; the chunk whose time is
    printed as the peak time is one of the entries, and its ['max_power'] is
    the peak power that is printed. *)
Theorem summary_peak (b : bucket F) (agg : list (bucket F)) :
  exists s : summary F,
    summary_24h (b :: agg) = Ok (Some s)
    /\ total_chunks s = S (List.length agg)
    /\ In (peak_chunk s) (b :: agg)
    /\ max_power (peak_chunk s) = peak_power s.
Proof.
eexists. split; [reflexivity|]. cbn [total_chunks peak_chunk peak_power].
split; [reflexivity|]. split; [apply fold_key_in|].
cbn [map]. apply fold_key.
Qed.

(** X12.  The count of low chunks that is printed is the number of entries
    that are not above 50 W: it is never negative, and with the productive
    chunks it makes up the total. *)
Theorem summary_low_chunks (b : bucket F) (agg : list (bucket F)) :
  exists s : summary F,
    summary_24h (b :: agg) = Ok (Some s)
    /\ low_chunks s
       = Z.of_nat (List.length
                     (filter (fun c => negb (productive c)) (b :: agg)))
    /\ 0 <= low_chunks s
    /\ Z.of_nat (productive_count s) + low_chunks s
       = Z.of_nat (total_chunks s).
Proof.
eexists. split; [reflexivity|].
cbn [low_chunks productive_count total_chunks].
pose proof (filter_split_length _ productive (b :: agg)) as P.
unfold productive_chunks. lia.
Qed.

End SummaryFacts.

Section ExactSummary.

Local Open Scope Q_scope.

Lemma mean_of_bounds (l : list Q) (lo hi : Q) :
  l <> [] ->
  Forall (fun y => lo <= y /\ y <= hi) l ->
  lo <= mean_of l /\ mean_of l <= hi.
Proof.
intros N B. unfold mean_of, py_sum. cbn [num_div num_add num_of_int exact].
set (n := inject_Z (Z.of_nat (List.length l))).
assert (0 < n) as Hn.
{ unfold n. change 0 with (inject_Z 0). rewrite <- Zlt_Qlt.
  destruct l; [contradiction | cbn [List.length]; lia]. }
split.
- apply Qle_shift_div_l; [assumption|].
  eapply Qle_trans; [|apply (sum_lower l lo (inject_Z 0))].
  + fold n. setoid_replace (inject_Z 0 + n * lo) with (lo * n) by ring.
    apply Qle_refl.
  + eapply Forall_impl; [|exact B]. now intros y [].
- apply Qle_shift_div_r; [assumption|].
  eapply Qle_trans; [apply (sum_upper l hi (inject_Z 0))|].
  + eapply Forall_impl; [|exact B]. now intros y [].
  + fold n. setoid_replace (inject_Z 0 + n * hi) with (hi * n) by ring.
    apply Qle_refl.
Qed.

Lemma groups_mean_between (rs : list (reading Q)) :
  Forall (fun b => min_power b <= avg_power b /\ avg_power b <= max_power b)
    (map bucket_of_group (groups rs)).
Proof.
apply Forall_map. eapply Forall_impl; [|apply groups_ok].
intros [w g] [Hne _]. unfold bucket_of_group, bucket_of. simpl in *.
destruct g as [|r g]; [contradiction|]. apply mean_between.
Qed.

(** X13.  When the arithmetic is exact, the 24-hour average that the
    summary prints for the entries of an aggregation lies between the
    minimum power and the peak power it prints. *)
Theorem summary_mean_bound_exact (data_rows : list string)
  (agg : list (bucket Q)) (s : summary Q) :
  aggregate data_rows = Ok agg ->
  summary_24h agg = Ok (Some s) ->
  lowest_power s <= avg_power_24h s /\ avg_power_24h s <= peak_power s.
Proof.
rewrite aggregate_groups. intros A S. injection A as A.
pose proof (groups_mean_between (readings_of data_rows)) as B.
rewrite A in B. clear A.
destruct agg as [|b agg]; [discriminate|].
cbn in S. injection S as S. subst s.
cbn [lowest_power avg_power_24h peak_power].
set (l := b :: agg) in *.
pose proof (fold_max_upper (map max_power agg) (max_power b)) as [Ux Ur].
pose proof (fold_min_lower (map min_power agg) (min_power b)) as [Lx Lr].
apply (mean_of_bounds (map avg_power l)); [discriminate|].
assert (Forall (fun c => max_power c
                         <= fold_left (fun m y => if num_lt m y then y else m)
                              (map max_power agg) (max_power b)) l) as U.
{ constructor; [exact Ux|]. now rewrite Forall_map in Ur. }
assert (Forall (fun c => fold_left (fun m y => if num_lt y m then y else m)
                           (map min_power agg) (min_power b)
                         <= min_power c) l) as L.
{ constructor; [exact Lx|]. now rewrite Forall_map in Lr. }
rewrite Forall_map. rewrite Forall_forall in B, U, L |- *.
intros c I. destruct (B c I) as [B1 B2]. split.
- eapply Qle_trans; [apply (L c I) | exact B1].
- eapply Qle_trans; [exact B2 | apply (U c I)].
Qed.

Lemma summary_mean_bound_exact_witness :
  exists (agg : list (bucket Q)) (s : summary Q),
    aggregate five_minute_rows = Ok agg
    /\ summary_24h agg = Ok (Some s)
    /\ lowest_power s <= avg_power_24h s /\ avg_power_24h s <= peak_power s.
Proof.
destruct (aggregate (F:=Q) five_minute_rows) as [agg|e] eqn:A;
  [|vm_compute in A; discriminate A].
destruct (summary_24h agg) as [[s|]|e] eqn:S;
  [ | exfalso | exfalso ].
- exists agg, s. split; [reflexivity|]. split; [exact S|].
  exact (summary_mean_bound_exact five_minute_rows agg s A S).
- vm_compute in A. injection A as A. subst agg. discriminate S.
- vm_compute in A. injection A as A. subst agg. discriminate S.
Defined.

(** X14.  When the arithmetic is exact, the energy estimate is the 24-hour
    average power times the hours that the chunks cover, a quarter of an
    hour each, in kWh: windows without a reading add nothing to it. *)
Theorem summary_energy_exact (b : bucket Q) (agg : list (bucket Q)) :
  exists s : summary Q,
    summary_24h (b :: agg) = Ok (Some s)
    /\ energy_kwh s
       == avg_power_24h s * (inject_Z (Z.of_nat (total_chunks s)) * (1 # 4))
          / 1000.
Proof.
eexists. split; [reflexivity|].
cbn [energy_kwh avg_power_24h total_chunks].
cbn [num_div num_mul num_of_int num_of_decimal exact].
rewrite length_map.
set (n := inject_Z (Z.of_nat (List.length (b :: agg)))).
assert (~ n == 0) as Hn.
{ unfold n. change 0 with (inject_Z 0). rewrite inject_Z_injective.
  cbn [List.length]. lia. }
set (t := py_sum (map avg_power (b :: agg))).
change (Exact.of_decimal false 25 2) with (25 # 100).
change (inject_Z 1000) with 1000.
setoid_replace (25 # 100) with (1 # 4) by reflexivity.
field. assumption.
Qed.

End ExactSummary.

(** ** The performance rating *)

Lemma rating_above (c x y : float) :
  PrimFloat.ltb x y = true ->
  PrimFloat.ltb c x = true -> PrimFloat.ltb c y = true.
Proof. intros L C. exact (float_ltb_trans c x y C L). Qed.

(** X15.  In binary64 the rating never gets worse when the efficiency
    grows: a greater percentage has the same rating or a better one. *)
Theorem performance_rating_monotone (x y : float) :
  PrimFloat.ltb x y = true ->
  (rating_rank (performance_rating x) <= rating_rank (performance_rating y))%nat.
Proof.
intros L. unfold performance_rating. cbn [num_lt binary64].
pose proof (rating_above (num_of_int 75) x y L) as T75.
pose proof (rating_above (num_of_int 60) x y L) as T60.
pose proof (rating_above (num_of_int 45) x y L) as T45.
pose proof (rating_above (num_of_int 30) x y L) as T30.
cbn [num_of_int binary64] in *.
destruct (PrimFloat.ltb (Binary64.of_int 75) x);
  [rewrite (T75 eq_refl); apply Nat.leb_le; reflexivity|].
destruct (PrimFloat.ltb (Binary64.of_int 60) x).
{ rewrite (T60 eq_refl).
  destruct (PrimFloat.ltb (Binary64.of_int 75) y);
    apply Nat.leb_le; reflexivity. }
destruct (PrimFloat.ltb (Binary64.of_int 45) x).
{ rewrite (T45 eq_refl).
  destruct (PrimFloat.ltb (Binary64.of_int 75) y);
    destruct (PrimFloat.ltb (Binary64.of_int 60) y);
    apply Nat.leb_le; reflexivity. }
destruct (PrimFloat.ltb (Binary64.of_int 30) x).
{ rewrite (T30 eq_refl).
  destruct (PrimFloat.ltb (Binary64.of_int 75) y);
    destruct (PrimFloat.ltb (Binary64.of_int 60) y);
    destruct (PrimFloat.ltb (Binary64.of_int 45) y);
    apply Nat.leb_le; reflexivity. }
apply Nat.le_0_l.
Qed.

Lemma performance_rating_monotone_witness :
  PrimFloat.ltb 75 75.5 = true
  /\ performance_rating 75%float = "[GOOD]"
  /\ performance_rating 75.5%float = "[EXCELLENT]"
  /\ (rating_rank (performance_rating 75%float)
      <= rating_rank (performance_rating 75.5%float))%nat.
Proof.
assert (PrimFloat.ltb 75 75.5 = true) as L by (vm_compute; reflexivity).
split; [exact L|].
split; [vm_compute; reflexivity|]. split; [vm_compute; reflexivity|].
exact (performance_rating_monotone 75%float 75.5%float L).
Defined.

(** ** [get_status_icon] *)

(** X16.  A status that is none of the four keys of the dictionary gets the
    icon ["[?]"], and no other status does; the icon is always one of the
    five. *)
Theorem get_status_icon_default (status : string) :
  (get_status_icon status = "[?]" <-> ~ In status (map fst icons))
  /\ In (get_status_icon status) ("[?]" :: map snd icons).
Proof.
unfold get_status_icon, icons. cbn [dict_get map fst snd In].
destruct (String.eqb_spec "success" status) as [E|N1].
{ split; [split; [discriminate | tauto] | tauto]. }
destruct (String.eqb_spec "warning" status) as [E|N2].
{ split; [split; [discriminate | tauto] | tauto]. }
destruct (String.eqb_spec "error" status) as [E|N3].
{ split; [split; [discriminate | tauto] | tauto]. }
destruct (String.eqb_spec "info" status) as [E|N4].
{ split; [split; [discriminate | tauto] | tauto]. }
split; [split; [tauto | reflexivity] | tauto].
Qed.

(** ** Listings that are cut short *)

Lemma skipn_length_pos (A : Type) (n : nat) (l : list A) :
  (n < List.length l)%nat <-> skipn n l <> [].
Proof.
rewrite <- length_zero_iff_nil, length_skipn. lia.
Qed.

(** X17.  The alert types that are listed are the first five; the line
    ["... and N more"] is printed exactly when some are left out, and [N] is
    their number. *)
Theorem alert_types_listing_complete (A : Type) (alert_types : list A) :
  let hidden := skipn 5 alert_types in
  fst (alert_types_listing alert_types) ++ hidden = alert_types
  /\ (List.length (fst (alert_types_listing alert_types)) <= 5)%nat
  /\ snd (alert_types_listing alert_types)
     = match hidden with
       | [] => None
       | _ :: _ => Some (List.length hidden)
       end.
Proof.
unfold alert_types_listing, py_slice. cbn [fst snd Nat.sub].
change (skipn 0 alert_types) with alert_types.
split; [apply firstn_skipn|]. split; [apply firstn_le_length|].
pose proof (length_skipn 5 alert_types) as L.
destruct (Nat.ltb_spec 5 (List.length alert_types)) as [G|G].
- destruct (skipn 5 alert_types) as [|a r] eqn:E.
  + simpl in L. lia.
  + f_equal. cbn [List.length] in *. lia.
- destruct (skipn 5 alert_types) as [|a r] eqn:E; [reflexivity|].
  simpl in L. lia.
Qed.

Lemma split_cons (sep : ascii) (s : string) :
  exists l ls, Str.split sep s = l :: ls.
Proof.
destruct s as [|a s]; simpl; [eauto|].
destruct (Ascii.eqb a sep); [eauto|].
destruct (Str.split sep s); eauto.
Qed.

(** X18.  Of the panel-level text the first line is printed as the header
    and the five lines after it as the sample; the line that announces more
    rows is printed exactly when lines are left out, and gives their
    number.  The header is never the placeholder ["No data"]. *)
Theorem panel_sample_complete (aggregate_csv : string)
  (heading : string) (rows : list string) (more : option nat) :
  panel_sample aggregate_csv = Some (heading, rows, more) ->
  let agg_lines := Str.split Str.newline (Str.strip aggregate_csv) in
  let hidden := skipn 6 agg_lines in
  agg_lines = heading :: rows ++ hidden
  /\ (List.length rows <= 5)%nat
  /\ more = match hidden with
            | [] => None
            | _ :: _ => Some (List.length hidden)
            end.
Proof.
unfold panel_sample.
destruct (Str.truthy aggregate_csv && Str.truthy (Str.strip aggregate_csv));
  [|discriminate].
destruct (split_cons Str.newline (Str.strip aggregate_csv)) as (l & ls & ->).
unfold py_slice. cbn [nth Nat.sub].
change (skipn 1 (l :: ls)) with ls.
change (skipn 6 (l :: ls)) with (skipn 5 ls).
change (6 <? List.length (l :: ls))%nat with (5 <? List.length ls)%nat.
pose proof (firstn_skipn 5 ls) as FS.
pose proof (firstn_le_length 5 ls) as FL.
pose proof (length_skipn 5 ls) as L.
remember (firstn 5 ls) as shown eqn:Hs.
remember (skipn 5 ls) as hidden eqn:Hh.
remember (5 <? List.length ls)%nat as many eqn:Hm.
remember (List.length (l :: ls) - 6)%nat as n eqn:Hn.
clear Hs Hh. symmetry in Hm.
destruct ls as [|l2 ls'].
- cbn [List.length Nat.ltb Nat.leb]. intros E. injection E as <- <- <-.
  destruct shown; [|discriminate]. destruct hidden; [|discriminate].
  repeat split. simpl. lia.
- cbn [Nat.ltb Nat.leb List.length]. intros E. injection E as <- <- <-.
  split; [now rewrite FS|]. split; [assumption|].
  destruct many.
  + apply Nat.ltb_lt in Hm. destruct hidden as [|a r].
    * simpl in L. cbn [List.length] in Hm. lia.
    * f_equal. cbn [List.length] in *. lia.
  + apply Nat.ltb_ge in Hm. destruct hidden as [|a r]; [reflexivity|].
    cbn [List.length] in *. lia.
Qed.

Lemma panel_sample_complete_witness :
  exists (rows : list string),
    panel_sample panel_text = Some ("Datetime,A1,A2,A3", rows, Some 2%nat)
    /\ List.length rows = 5%nat
    /\ Str.split Str.newline (Str.strip panel_text)
       = "Datetime,A1,A2,A3"
         :: rows ++ skipn 6 (Str.split Str.newline (Str.strip panel_text)).
Proof.
destruct (panel_sample panel_text) as [[[heading rows] more]|] eqn:E;
  [|vm_compute in E; discriminate E].
pose proof (panel_sample_complete panel_text heading rows more E) as [A _].
exists rows.
assert (heading = "Datetime,A1,A2,A3" /\ more = Some 2%nat
        /\ List.length rows = 5%nat) as [-> [-> L]].
{ vm_compute in E. injection E as <- <- <-. repeat split. }
split; [reflexivity|]. split; [exact L | exact A].
Defined.

(** ** The weekly trend *)

Example weekly_trend_example :
  weekly_trend week_items
  = Done (mk_weekly
            [ ("2023-12-31", 7%float); ("2024-01-01", 3%float);
              ("2024-01-02", 6.75%float) ]
            16.75%float (PrimFloat.div 16.75 3)).
Proof. vm_compute. reflexivity. Qed.

Section WeeklyFacts.

Context {F : Type} {num : PyNum F}.

Lemma dict_item_set (d : list (string * F)) (key : string) (v : F) (k : string) :
  dict_item (dict_set d key v) k
  = if String.eqb key k then Done v else dict_item d k.
Proof.
induction d as [|[k0 x] d IH]; simpl.
- reflexivity.
- destruct (String.eqb_spec k0 key) as [->|N]; simpl.
  + now destruct (String.eqb key k).
  + rewrite IH. destruct (String.eqb_spec k0 k) as [->|N2]; [|reflexivity].
    destruct (String.eqb_spec key k) as [->|_]; [contradiction | reflexivity].
Qed.

Lemma dict_item_keys (d : list (string * F)) (k : string) :
  In k (map fst d) <-> exists v, dict_item d k = Done v.
Proof.
induction d as [|[k0 x] d IH]; simpl.
- split; [intros [] | intros [v E]; discriminate].
- destruct (String.eqb_spec k0 k) as [->|N].
  + split; eauto.
  + rewrite <- IH. tauto.
Qed.

Lemma dict_item_cases (d : list (string * F)) (k : string) :
  (exists v, dict_item d k = Done v) \/ dict_item d k = KeyError.
Proof.
induction d as [|[k0 x] d IH]; simpl; [now right|].
destruct (String.eqb k0 k); eauto.
Qed.

Lemma keys_set (d : list (string * F)) (key : string) (v : F) :
  map fst (dict_set d key v)
  = if dict_contains d key then map fst d else map fst d ++ [key].
Proof.
unfold dict_contains.
induction d as [|[k0 x] d IH]; simpl; [reflexivity|].
destruct (String.eqb_spec k0 key) as [->|N]; simpl; [reflexivity|].
rewrite IH. now destruct (dict_item d key).
Qed.

(** One item: the dictionary after it holds, at every key, what it held
    before with the energy added when the key is the date of the item. *)
Lemma add_day_item (d : list (string * F)) (date : datetime) (energy : F) :
  exists d',
    add_day d (date, energy) = Done d'
    /\ (forall k, dict_item d' k
                  = if String.eqb (strftime_date date) k
                    then added (dict_item d k) [energy]
                    else dict_item d k)
    /\ (NoDup (map fst d) -> NoDup (map fst d')).
Proof.
unfold add_day, dict_contains. cbv zeta.
generalize (strftime_date date). intros key.
destruct (dict_item_cases d key) as [[v E]|E]; rewrite E;
  cbn [negb attempt_bind].
- eexists. split; [reflexivity|]. split.
  + intros k. rewrite dict_item_set.
    destruct (String.eqb_spec key k) as [<-|_];
      [now rewrite E | reflexivity].
  + rewrite keys_set. unfold dict_contains. now rewrite E.
- eexists. split; [reflexivity|]. split.
  + intros k. rewrite dict_item_set.
    destruct (String.eqb_spec key k) as [<-|_];
      [now rewrite E | reflexivity].
  + rewrite keys_set. unfold dict_contains. rewrite E. intros N.
    apply NoDup_app; [assumption | repeat constructor; intros [] |].
    intros k I [<-|[]]. apply dict_item_keys in I. destruct I as [v I].
    congruence.
Qed.

Lemma added_app (start : attempt F) (e : F) (es : list F) :
  added (added start [e]) es = added start (e :: es).
Proof. destruct start; reflexivity. Qed.

Lemma accumulate_items (items : list (datetime * F)) :
  forall d : list (string * F),
  exists d',
    accumulate d items = Done d'
    /\ (forall k, dict_item d' k = added (dict_item d k) (energies_of k items))
    /\ (NoDup (map fst d) -> NoDup (map fst d')).
Proof.
induction items as [|[date energy] items IH]; intros d.
- exists d. split; [reflexivity|]. split; [|auto].
  intros k. unfold energies_of. simpl. now destruct (dict_item d k).
- destruct (add_day_item d date energy) as (d1 & A & I & N).
  destruct (IH d1) as (d' & A' & I' & N').
  exists d'. cbn [accumulate]. rewrite A. cbn [attempt_bind].
  split; [exact A'|]. split; [|auto].
  intros k. rewrite I', I. unfold energies_of. cbn [filter fst].
  destruct (String.eqb (strftime_date date) k); cbn [map snd].
  + apply added_app.
  + reflexivity.
Qed.

Lemma insert_key_in (k key : string) (keys : list string) :
  In k (insert_key key keys) <-> k = key \/ In k keys.
Proof.
induction keys as [|x keys IH]; simpl; [intuition|].
destruct (String.leb key x); simpl; [intuition|].
rewrite IH. intuition.
Qed.

Lemma sorted_in (k : string) (keys : list string) :
  In k (sorted keys) <-> In k keys.
Proof.
induction keys as [|x keys IH]; simpl; [tauto|].
rewrite insert_key_in, IH. intuition.
Qed.

Lemma string_ltb_of_leb (a b : string) :
  String.leb a b = true -> a <> b -> String.ltb a b = true.
Proof.
unfold String.leb, String.ltb. intros L N.
destruct (String.compare a b) eqn:C; [|reflexivity|discriminate].
apply String.compare_eq_iff in C. contradiction.
Qed.

Lemma insert_key_sorted (key : string) (keys : list string) :
  ~ In key keys ->
  Sorted (fun a b => String.ltb a b = true) keys ->
  Sorted (fun a b => String.ltb a b = true) (insert_key key keys).
Proof.
induction keys as [|x keys IH]; intros N S; simpl.
- repeat constructor.
- assert (key <> x) as Nx by (intros ->; apply N; now left).
  destruct (String.leb key x) eqn:L.
  + constructor; [assumption|]. constructor.
    now apply string_ltb_of_leb.
  + inversion S as [|? ? S' H]; subst.
    constructor; [apply IH; [intros I; apply N; now right | assumption]|].
    assert (String.ltb x key = true) as G.
    { apply string_ltb_of_leb; [|congruence].
      destruct (String.leb_total key x); congruence. }
    destruct keys as [|y keys]; simpl; [now constructor|].
    destruct (String.leb key y); constructor; [assumption|].
    now inversion H.
Qed.

Lemma sorted_increasing (keys : list string) :
  NoDup keys -> Sorted (fun a b => String.ltb a b = true) (sorted keys).
Proof.
induction keys as [|x keys IH]; intros N; simpl; [constructor|].
inversion N; subst. apply insert_key_sorted; [|now apply IH].
now rewrite sorted_in.
Qed.

Lemma day_lines_found (d : list (string * F)) (keys : list string) :
  (forall k, In k keys -> In k (map fst d)) ->
  exists lines,
    day_lines_of d keys = Done lines
    /\ map fst lines = keys
    /\ Forall (fun line => dict_item d (fst line) = Done (snd line)) lines.
Proof.
induction keys as [|k keys IH]; intros H; simpl.
- exists []. repeat split. constructor.
- destruct (proj1 (dict_item_keys d k) (H k (or_introl eq_refl))) as [v E].
  destruct IH as (lines & L & K & A); [intros k' I; apply H; now right|].
  rewrite E, L. simpl. eexists. split; [reflexivity|]. split.
  + simpl. now rewrite K.
  + constructor; assumption.
Qed.

(** The report of the week as a function of the dictionary. *)
Lemma weekly_trend_done (items : list (datetime * F)) :
  exists (d : list (string * F)) (w : weekly F),
    accumulate [] items = Done d
    /\ weekly_trend items = Done w
    /\ map fst (day_lines w) = sorted (map fst d)
    /\ Forall (fun line => dict_item d (fst line) = Done (snd line)) (day_lines w)
    /\ total_week w = py_sum (map snd d)
    /\ avg_daily w = match d with
                     | [] => num_of_int 0
                     | _ :: _ => mean_of (map snd d)
                     end.
Proof.
destruct (accumulate_items items []) as (d & A & _ & _).
destruct (day_lines_found d (sorted (map fst d))) as (lines & L & K & V).
{ intros k. apply sorted_in. }
exists d. unfold weekly_trend. rewrite A. cbn [attempt_bind]. rewrite L.
cbn [attempt_bind].
destruct d as [|kv d].
- eexists. repeat split; try reflexivity; assumption.
- cbn [div_len List.length Nat.eqb attempt_bind].
  eexists. split; [reflexivity|]. split; [reflexivity|].
  cbn [day_lines total_week avg_daily]. repeat split; try assumption.
  unfold mean_of. now rewrite length_map.
Qed.

Lemma weekly_keys (daily_energy : list (datetime * F)) :
  exists w : weekly F,
    weekly_trend daily_energy = Done w
    /\ Sorted (fun a b => String.ltb a b = true) (map fst (day_lines w))
    /\ (forall date_str,
          In date_str (map fst (day_lines w))
          <-> exists item, In item daily_energy
                           /\ strftime_date (fst item) = date_str).
Proof.
destruct (accumulate_items daily_energy []) as (d & A & I & N).
destruct (weekly_trend_done daily_energy) as (d' & w & A' & W & K & _).
rewrite A in A'. injection A' as <-.
exists w. split; [exact W|]. rewrite K. split.
- apply sorted_increasing. apply N. constructor.
- intros k. rewrite sorted_in, dict_item_keys, I. simpl.
  unfold energies_of. split.
  + intros [v E].
    destruct (filter _ daily_energy) as [|item l] eqn:Fl; [discriminate|].
    assert (In item (filter
                       (fun item => String.eqb (strftime_date (fst item)) k)
                       daily_energy)) as J by (rewrite Fl; now left).
    apply filter_In in J. destruct J as [J1 J2].
    apply String.eqb_eq in J2. eauto.
  + intros (item & J & E).
    assert (In item (filter
                       (fun item => String.eqb (strftime_date (fst item)) k)
                       daily_energy)) as J'.
    { apply filter_In. split; [assumption | now apply String.eqb_eq]. }
    destruct (filter _ daily_energy) as [|i l]; [destruct J'|].
    simpl. eauto.
Qed.

(** X19.  The weekly trend never raises.  It prints one line for each date
    that occurs in the data, and no other; the lines come in strictly
    increasing order of the date string. *)
Theorem weekly_days (daily_energy : list (datetime * F)) :
  exists w : weekly F,
    weekly_trend daily_energy = Done w
    /\ Sorted (fun a b => String.ltb a b = true) (map fst (day_lines w))
    /\ (forall date_str,
          In date_str (map fst (day_lines w))
          <-> exists item, In item daily_energy
                           /\ strftime_date (fst item) = date_str).
Proof.
destruct (weekly_keys daily_energy) as (w & W & S & K).
exists w. split; [exact W|]. split; [exact S|].
intros date_str. split.
- intros I. now apply K.
- intros J. now apply K.
Qed.

(** X20.  The energy printed for a date is the sum of the energies of the
    items of that date, added from the left in the order of the data,
    whatever the arithmetic. *)
Theorem weekly_day_energy (daily_energy : list (datetime * F)) :
  exists w : weekly F,
    weekly_trend daily_energy = Done w
    /\ Forall (fun line =>
                 exists e es,
                   energies_of (fst line) daily_energy = e :: es
                   /\ snd line = fold_left num_add es e)
         (day_lines w).
Proof.
destruct (accumulate_items daily_energy []) as (d & A & I & _).
destruct (weekly_trend_done daily_energy) as (d' & w & A' & W & _ & V & _).
rewrite A in A'. injection A' as <-.
exists w. split; [exact W|].
eapply Forall_impl; [|exact V]. intros [k v] E. simpl in *.
rewrite I in E. simpl in E.
destruct (energies_of k daily_energy) as [|e es]; [discriminate|].
injection E as <-. eauto.
Qed.

End WeeklyFacts.

Section ExactWeekly.

Local Open Scope Q_scope.











End ExactWeekly.

(** ** The order of the date strings *)

Lemma digit_char_compare (a b : Z) :
  Ascii.compare (digit_char a) (digit_char b) = (a mod 10 ?= b mod 10).
Proof.
unfold Ascii.compare, digit_char.
assert (forall n, 0 <= n mod 10 < 10) as R
    by (intros n; apply Z.mod_pos_bound; lia).
assert (forall n, N_of_ascii (ascii_of_nat (48 + Z.to_nat (n mod 10)))
                  = Z.to_N (48 + n mod 10)) as E.
{ intros n. specialize (R n). unfold ascii_of_nat.
  rewrite N_ascii_embedding by lia. lia. }
rewrite !E. specialize (R a) as Ra. specialize (R b) as Rb.
rewrite Z2N.inj_compare by lia. apply Z.add_compare_mono_l.
Qed.

Lemma compare_two_digits (a b : Z) (c : comparison) :
  0 <= a < 100 -> 0 <= b < 100 ->
  match (a / 10) mod 10 ?= (b / 10) mod 10 with
  | Eq => match a mod 10 ?= b mod 10 with
          | Eq => c
          | ne => ne
          end
  | ne => ne
  end
  = match a ?= b with
    | Eq => c
    | ne => ne
    end.
Proof.
intros A B.
destruct (Z.compare_spec ((a / 10) mod 10) ((b / 10) mod 10));
  destruct (Z.compare_spec (a mod 10) (b mod 10));
  destruct (Z.compare_spec a b); try reflexivity; exfalso;
  Z.div_mod_to_equations; lia.
Qed.

Lemma compare_four_digits (a b : Z) (c : comparison) :
  0 <= a < 10000 -> 0 <= b < 10000 ->
  match (a / 1000) mod 10 ?= (b / 1000) mod 10 with
  | Eq => match (a / 100) mod 10 ?= (b / 100) mod 10 with
          | Eq => match (a / 10) mod 10 ?= (b / 10) mod 10 with
                  | Eq => match a mod 10 ?= b mod 10 with
                          | Eq => c
                          | ne => ne
                          end
                  | ne => ne
                  end
          | ne => ne
          end
  | ne => ne
  end
  = match a ?= b with
    | Eq => c
    | ne => ne
    end.
Proof.
intros A B.
assert (0 <= a / 100 < 100 /\ 0 <= b / 100 < 100) as [A1 B1].
{ split; (split; [apply Z.div_pos; lia | apply Z.div_lt_upper_bound; lia]). }
assert (0 <= a mod 100 < 100 /\ 0 <= b mod 100 < 100) as [A2 B2]
    by (split; apply Z.mod_pos_bound; lia).
pose proof (compare_two_digits (a / 100) (b / 100)
              (match a mod 100 ?= b mod 100 with
               | Eq => c
               | ne => ne
               end) A1 B1) as H1.
pose proof (compare_two_digits (a mod 100) (b mod 100) c A2 B2) as H2.
replace (a / 100 / 10) with (a / 1000) in H1
    by (rewrite Z.div_div by lia; reflexivity).
replace (b / 100 / 10) with (b / 1000) in H1
    by (rewrite Z.div_div by lia; reflexivity).
replace ((a mod 100) / 10 mod 10) with ((a / 10) mod 10) in H2
    by (Z.div_mod_to_equations; lia).
replace ((b mod 100) / 10 mod 10) with ((b / 10) mod 10) in H2
    by (Z.div_mod_to_equations; lia).
replace ((a mod 100) mod 10) with (a mod 10) in H2
    by (Z.div_mod_to_equations; lia).
replace ((b mod 100) mod 10) with (b mod 10) in H2
    by (Z.div_mod_to_equations; lia).
rewrite H2, H1. clear H1 H2.
destruct (Z.compare_spec (a / 100) (b / 100));
  destruct (Z.compare_spec (a mod 100) (b mod 100));
  destruct (Z.compare_spec a b); try reflexivity; exfalso;
  Z.div_mod_to_equations; lia.
Qed.

Lemma days_in_month_bound (y m : Z) : DT.days_in_month y m <= 31.
Proof.
unfold DT.days_in_month.
destruct (m =? 2); [destruct (DT.is_leap y); lia|].
destruct ((m =? 4) || (m =? 6) || (m =? 9) || (m =? 11)); lia.
Qed.

Lemma valid_date_ranges (t : datetime) :
  DT.valid t = true ->
  0 <= year t < 10000 /\ 0 <= month t < 100 /\ 0 <= day t < 100.
Proof.
unfold DT.valid, DT.in_range. intros V. rewrite !andb_true_iff in V.
destruct V as [[[[[[[Y1 Y2] [M1 M2]] [D1 D2]] _] _] _] _].
apply Z.leb_le in Y1, Y2, M1, M2, D1, D2.
pose proof (days_in_month_bound (year t) (month t)). lia.
Qed.

(** The date strings of two dates compare as the dates do. *)
Lemma strftime_date_compare (t1 t2 : datetime) :
  DT.valid t1 = true -> DT.valid t2 = true ->
  String.compare (strftime_date t1) (strftime_date t2) = date_compare t1 t2.
Proof.
intros V1 V2.
destruct (valid_date_ranges t1 V1) as (Y1 & M1 & D1).
destruct (valid_date_ranges t2 V2) as (Y2 & M2 & D2).
unfold strftime_date, date_compare. cbn [String.compare DT.lex_compare].
rewrite !digit_char_compare.
change (Ascii.compare "-" "-") with Eq. cbv iota.
rewrite (compare_two_digits (day t1) (day t2) Eq D1 D2).
rewrite (compare_two_digits (month t1) (month t2) _ M1 M2).
rewrite (compare_four_digits (year t1) (year t2) _ Y1 Y2).
reflexivity.
Qed.

Lemma keys_dates {F : Type} (items : list (datetime * F)) (keys : list string) :
  (forall k, In k keys ->
             exists item, In item items /\ strftime_date (fst item) = k) ->
  exists dates,
    map strftime_date dates = keys
    /\ Forall (fun t => In t (map fst items)) dates.
Proof.
induction keys as [|k keys IH]; intros H.
- exists []. split; [reflexivity | constructor].
- destruct (H k (or_introl eq_refl)) as (item & I & E).
  destruct IH as (dates & M & A); [intros k' J; apply H; now right|].
  exists (fst item :: dates). split; [simpl; now rewrite E, M|].
  constructor; [now apply in_map | assumption].
Qed.

Lemma sorted_dates (dates : list datetime) :
  Forall (fun t => DT.valid t = true) dates ->
  Sorted (fun a b => String.ltb a b = true) (map strftime_date dates) ->
  Sorted (fun a b => date_compare a b = Lt) dates.
Proof.
induction dates as [|t dates IH]; intros V S; [constructor|].
inversion V as [|? ? Vt Vd]; subst.
cbn [map] in S. inversion S as [|? ? S' H]; subst.
constructor; [now apply IH|].
destruct dates as [|t2 dates]; [constructor|].
inversion Vd; subst. cbn [map] in H. inversion H as [|? ? L]; subst.
constructor. unfold String.ltb in L.
rewrite strftime_date_compare in L by assumption.
now destruct (date_compare t t2).
Qed.

(** X22.  When the dates of the data are dates the [datetime] constructor
    accepts, with a year of four digits, the lines of the weekly trend come
    in chronological order, one per day: sorting the date strings sorts the
    days. *)
Theorem weekly_chronological {F : Type} {num : PyNum F}
  (daily_energy : list (datetime * F)) :
  Forall (fun item => DT.valid (fst item) = true /\ 1000 <= year (fst item))
    daily_energy ->
  exists (w : weekly F) (dates : list datetime),
    weekly_trend daily_energy = Done w
    /\ map fst (day_lines w) = map strftime_date dates
    /\ Forall (fun t => In t (map fst daily_energy)) dates
    /\ Sorted (fun a b => date_compare a b = Lt) dates.
Proof.
intros V.
destruct (weekly_keys daily_energy) as (w & W & S & K).
destruct (keys_dates daily_energy (map fst (day_lines w))) as (dates & M & A).
{ intros k I. now apply K. }
exists w, dates. split; [exact W|]. split; [now rewrite M|].
split; [exact A|]. apply sorted_dates; [|now rewrite M].
rewrite Forall_forall in A, V |- *. intros t I.
apply A in I. apply in_map_iff in I. destruct I as (item & <- & I).
exact (proj1 (V item I)).
Qed.

Lemma weekly_chronological_witness :
  Forall (fun item : datetime * float =>
            DT.valid (fst item) = true /\ 1000 <= year (fst item)) week_items
  /\ exists (w : weekly float) (dates : list datetime),
       weekly_trend week_items = Done w
       /\ map fst (day_lines w) = map strftime_date dates
       /\ Forall (fun t => In t (map fst week_items)) dates
       /\ Sorted (fun a b => date_compare a b = Lt) dates.
Proof.
assert (Forall (fun item : datetime * float =>
                  DT.valid (fst item) = true /\ 1000 <= year (fst item))
          week_items) as V.
{ repeat (constructor; [split; [reflexivity | simpl; lia]|]). constructor. }
split; [exact V|].
exact (weekly_chronological (F:=float) week_items V).
Defined.

(** ** Division by one in binary64 *)

Lemma prim_one : Prim2SF 1%float = sf_one.
Proof. vm_compute. reflexivity. Qed.

Lemma div_eucl_pow2 (m : positive) (k : Z) :
  0 <= k ->
  Z.div_eucl (Z.shiftl (Zpos m) (52 + k)) 4503599627370496
  = (Zpos m * 2 ^ k, 0).
Proof.
intros K.
rewrite Z.shiftl_mul_pow2 by lia.
rewrite Z.pow_add_r by lia.
change (2 ^ 52) with 4503599627370496.
pose proof (Z.div_eucl_eq (Z.pos m * (4503599627370496 * 2 ^ k))
              4503599627370496) as E.
pose proof (Z.mod_pos_bound (Z.pos m * (4503599627370496 * 2 ^ k))
              4503599627370496) as B.
unfold Z.modulo in B.
destruct (Z.div_eucl _ _) as [q r].
specialize (E ltac:(lia)). specialize (B ltac:(lia)).
assert (0 < 2 ^ k) by (apply Z.pow_pos_nonneg; lia).
f_equal; nia.
Qed.

(** A mantissa that is canonical at its exponent is left as it is. *)
Lemma round_canonical (sx : bool) (mx : positive) (ex : Z) :
  fexp prec emax (Zpos (digits2_pos mx) + ex) = ex ->
  ex <= emax - prec ->
  binary_round_aux prec emax sx (Zpos mx) ex loc_Exact = S754_finite sx mx ex.
Proof.
intros C B. unfold binary_round_aux, shr_fexp.
cbn [Zdigits2 shr_record_of_loc]. rewrite C, Z.sub_diag.
cbn [shr shr_m loc_of_shr_record round_nearest_even Zdigits2 shr_record_of_loc].
rewrite C, Z.sub_diag. cbn [shr shr_m].
apply Z.leb_le in B. now rewrite B.
Qed.

(** The same mantissa doubled, one exponent lower, is shifted back. *)
Lemma round_shifted (sx : bool) (mx : positive) (ex : Z) :
  fexp prec emax (Zpos (digits2_pos mx) + ex) = ex ->
  ex <= emax - prec ->
  binary_round_aux prec emax sx (Zpos mx~0) (ex - 1) loc_Exact
  = S754_finite sx mx ex.
Proof.
intros C B. unfold binary_round_aux, shr_fexp.
cbn [Zdigits2 shr_record_of_loc digits2_pos].
replace (fexp prec emax (Zpos (Pos.succ (digits2_pos mx)) + (ex - 1)) - (ex - 1))
  with 1 by (rewrite Pos2Z.inj_succ;
             replace (Z.succ (Zpos (digits2_pos mx)) + (ex - 1))
               with (Zpos (digits2_pos mx) + ex) by lia; lia).
cbn [shr SpecFloat.iter_pos shr_1 orb shr_m loc_of_shr_record
       round_nearest_even Zdigits2 shr_record_of_loc].
replace (ex - 1 + 1) with ex by lia.
rewrite C, Z.sub_diag. cbn [shr shr_m].
apply Z.leb_le in B. now rewrite B.
Qed.

Lemma SFdiv_one (s : spec_float) :
  valid_binary s = true -> SF64div s sf_one = s.
Proof.
destruct s as [sx|sx| |sx mx ex]; intros V.
- simpl. now rewrite xorb_false_r.
- simpl. now rewrite xorb_false_r.
- reflexivity.
- unfold sf_one, SF64div, SFdiv. rewrite xorb_false_r.
  unfold valid_binary, SpecFloat.valid_binary, bounded, canonical_mantissa in V.
  apply andb_true_iff in V. destruct V as [C B].
  apply Z.eqb_eq in C. apply Z.leb_le in B.
  pose proof (round_canonical sx mx ex C B) as R0.
  pose proof (round_shifted sx mx ex C B) as R1.
  unfold SFdiv_core_binary.
  change (Zdigits2 4503599627370496) with 53.
  change (Zdigits2 (Z.pos mx)) with (Z.pos (digits2_pos mx)).
  assert (exists k, (k = 0 \/ k = 1)
                    /\ Z.min (fexp prec emax
                                (Z.pos (digits2_pos mx) + ex - (53 + -52)))
                         (ex - -52) = ex - k) as (k & Hk & E).
  { unfold fexp, emin, prec, emax in *.
    destruct (Z.max_spec (Z.pos (digits2_pos mx) + ex - 53) (3 - 1024 - 53))
      as [[? M]|[? M]];
    destruct (Z.max_spec (Z.pos (digits2_pos mx) + ex - (53 + -52) - 53)
                (3 - 1024 - 53)) as [[? M']|[? M']];
    [ exists 0 | exists 0 | exists 0 | exists 1 ];
    (split; [lia|]);
    change IntDef.Z.max with Z.max in *; change IntDef.Z.min with Z.min in *;
    lia. }
  rewrite E. replace (ex - -52 - (ex - k)) with (52 + k) by lia.
  assert (match 52 + k with
          | 0 => Z.pos mx
          | Z.pos _ => Z.shiftl (Z.pos mx) (52 + k)
          | Z.neg _ => 0
          end = Z.shiftl (Z.pos mx) (52 + k)) as S.
  { destruct (52 + k) eqn:K; [lia | reflexivity | lia]. }
  rewrite S, div_eucl_pow2 by lia.
  change (new_location 4503599627370496 0) with loc_Exact.
  destruct Hk as [-> | ->].
  + replace (Z.pos mx * 2 ^ 0) with (Z.pos mx) by lia.
    rewrite Z.sub_0_r. exact R0.
  + replace (Z.pos mx * 2 ^ 1) with (Z.pos mx~0) by lia.
    exact R1.
Qed.

(** Dividing by 1 changes no binary64 number. *)
Lemma float_div_one (x : float) : PrimFloat.div x 1 = x.
Proof.
apply Prim2SF_inj. rewrite div_spec, prim_one.
apply SFdiv_one, Prim2SF_valid.
Qed.

(** ** Productive hours *)

(** C7 (productive hours).  The analysis period is the last 24 hours, one
    day.  The hours that are printed equal the number of entries whose
    ['avg_power'] is strictly above 50, times 0.25, divided by the number of
    days of the period: as binary64 numbers, as the program computes them,
    and as rationals.  An entry at or below 50 adds nothing to the figure,
    an entry above 50 adds one to the count. *)
Theorem productive_hours_metric :
  analysis_period_days = 1
  /\ (forall agg : list (bucket float),
        productive_hours agg
        = num_div
            (num_mul
               (num_of_int
                  (Z.of_nat
                     (List.length
                        (filter (fun c => num_lt (num_of_int 50) (avg_power c))
                           agg))))
               (num_of_decimal false 25 2))
            (num_of_int analysis_period_days)
        /\ productive_hours agg
           = productive_hours_per_day analysis_period_days agg)
  /\ (forall agg : list (bucket Q),
        (productive_hours agg
         == num_div
              (num_mul
                 (num_of_int
                    (Z.of_nat
                       (List.length
                          (filter (fun c => num_lt (num_of_int 50) (avg_power c))
                             agg))))
                 (num_of_decimal false 25 2))
              (num_of_int analysis_period_days))%Q)
  /\ (forall (F : Type) (num : PyNum F)
        (before after : list (bucket F)) (c : bucket F),
        num_lt (num_of_int 50) (avg_power c) = false ->
        productive_chunks (before ++ c :: after)
        = productive_chunks (before ++ after)
        /\ productive_hours (before ++ c :: after)
           = productive_hours (before ++ after))
  /\ (forall (F : Type) (num : PyNum F)
        (before after : list (bucket F)) (c : bucket F),
        num_lt (num_of_int 50) (avg_power c) = true ->
        productive_chunks (before ++ c :: after)
        = S (productive_chunks (before ++ after)))
  /\ (num_lt (F:=float) (num_of_int 50) 50%float = false
      /\ num_of_decimal (F:=float) false 25 2 = 0.25%float).
Proof.
split; [reflexivity|]. split; [|split; [|split; [|split]]].
- intros agg.
  assert (forall x : float, num_div x (num_of_int analysis_period_days) = x) as D.
  { intros x. cbn [num_div num_of_int binary64].
    replace (Binary64.of_int analysis_period_days) with 1%float
      by (vm_compute; reflexivity).
    apply float_div_one. }
  split.
  + rewrite D. reflexivity.
  + unfold productive_hours_per_day. now rewrite D.
- intros agg. unfold productive_hours, productive_chunks, productive.
  cbn [num_div num_mul num_of_int num_of_decimal exact].
  change (inject_Z analysis_period_days) with 1%Q.
  unfold Qdiv. change (/ 1)%Q with 1%Q. ring.
- intros F num before after c H.
  exact (proj1 (proj2 (productive_hours_count (before ++ after)))
           before after c H).
- intros F num before after c H.
  exact (proj1 (proj2 (proj2 (productive_hours_count (before ++ after))))
           before after c H).
- split; vm_compute; reflexivity.
Qed.
